(** * v-connect: the Express server of Server/app.js

    A shallow embedding of the routes of [Server/app.js] together with the
    session gate they rely on, and the properties of the authentication and
    request-authorisation flow.

    Layout:
    - JavaScript values as they occur in request bodies and documents;
    - the documents of the four collections and the server state;
    - a state-and-exception monad for [async] handlers with [try]/[catch];
    - the store operations, the session gate, the route handlers and the
      dispatcher;
    - the properties. *)

From stdpp Require Import base strings list gmap pretty.

Local Open Scope string_scope.
Local Set Warnings "-register-all".

(** ** JavaScript values *)

(** The values a JSON or url-encoded body, a document field or a JSON
    response can hold.  [VId] stands for a Mongo [ObjectId], [VBuf] for a
    [Buffer] (the bytes of an uploaded file).  Numbers are kept as integers:
    the code only ever tests them for truthiness. *)
Inductive value : Type :=
| VUndefined
| VNull
| VBool (b : bool)
| VNum (n : Z)
| VStr (s : string)
| VId (i : nat)
| VBuf (data : string)
| VArr (items : list value)
| VObj (fields : list (string * value)).

(** [!v] is [negb (truthy v)]. *)
Definition truthy (v : value) : bool :=
  match v with
  | VUndefined | VNull => false
  | VBool b => b
  | VNum n => negb (n =? 0)%Z
  | VStr s => negb (String.eqb s "")
  | VId _ | VBuf _ | VArr _ | VObj _ => true
  end.

(** [a || b] on values. *)
Definition js_or (a b : value) : value := if truthy a then a else b.

(** Structural equality of values; it is how a filter [{ field: v }] is
    matched against the field of a document.  Query operators inside
    filter values and the driver's treatment of an [undefined] filter
    value are outside the model: a filter value matches the fields equal
    to it. *)
Fixpoint value_eqb (a b : value) {struct a} : bool :=
  match a, b with
  | VUndefined, VUndefined => true
  | VNull, VNull => true
  | VBool x, VBool y => Bool.eqb x y
  | VNum x, VNum y => (x =? y)%Z
  | VStr x, VStr y => String.eqb x y
  | VId x, VId y => Nat.eqb x y
  | VBuf x, VBuf y => String.eqb x y
  | VArr xs, VArr ys =>
      (fix go (xs ys : list value) : bool :=
         match xs, ys with
         | [], [] => true
         | x :: xs', y :: ys' => value_eqb x y && go xs' ys'
         | _, _ => false
         end) xs ys
  | VObj xs, VObj ys =>
      (fix go (xs ys : list (string * value)) : bool :=
         match xs, ys with
         | [], [] => true
         | (k, x) :: xs', (l, y) :: ys' =>
             String.eqb k l && value_eqb x y && go xs' ys'
         | _, _ => false
         end) xs ys
  | _, _ => false
  end.

(** A request body (and a query string) after [express.json()] /
    [express.urlencoded()]: an object read by key.  A key that is absent
    reads as [undefined], which is what destructuring gives. *)
Definition field (o : gmap string value) (k : string) : value :=
  default VUndefined (o !! k).

(** [JSON.stringify] leaves out the keys whose value is [undefined]. *)
Definition is_undefined (v : value) : bool :=
  match v with VUndefined => true | _ => false end.

Definition json_obj (fields : list (string * value)) : value :=
  VObj (List.filter (λ kv, negb (is_undefined kv.2)) fields).

(** ** Errors *)

(** A JavaScript [Error]: [String(err)] and [err.toString()] print
    ["name: message"], the name alone when the message is empty and the
    message alone when the name is empty; [err.message] is the message
    alone. *)
Record Error := mkError { ename : string; emessage : string }.

Definition Error_toString (e : Error) : string :=
  if String.eqb (ename e) "" then emessage e
  else if String.eqb (emessage e) "" then ename e
  else ename e ++ ": " ++ emessage e.

Definition TypeError (msg : string) : Error := mkError "TypeError" msg.

(** ** Documents *)

(** The four models of [Server/models].  Their schemas are not part of
    [app.js]; each document carries the fields that [app.js] reads or
    writes, and [User] the salted hash and the salt the specification
    gives it. *)

Module User.
Record doc := mk {
  _id : nat;
  firstname : value;
  lastname : value;
  username : value;
  email : value;
  campus1 : value;
  hash : string;
  salt : string
}.
End User.

(** A principal is a user with the secret fields stripped: what [verify]
    returns and what the session gate attaches to the request as
    [req.user]. *)
Module Principal.
Record t := mk {
  _id : nat;
  firstname : value;
  lastname : value;
  username : value;
  email : value;
  campus1 : value
}.
End Principal.

Definition strip (u : User.doc) : Principal.t :=
  Principal.mk (User._id u) (User.firstname u) (User.lastname u)
    (User.username u) (User.email u) (User.campus1 u).

Module Project.
Record doc := mk {
  _id : nat;
  name : value;
  desc : value;
  num : value;
  type : value;
  createdBy : value
}.
End Project.

Module Club.
Record doc := mk {
  _id : nat;
  clubName : value;
  type : value;
  description : value;
  googleFormLink : value;
  posterImage : value
}.
End Club.

Module userdetail.
Record doc := mk {
  _id : nat;
  phone : value;
  instagram : value;
  twitter : value;
  linkedIn : value;
  github : value;
  fullName : value;
  email : value;
  campus : value;
  skills : value;
  projects : value
}.
End userdetail.

(** ** Server state *)

(** The collections in insertion order; the session store, which the
    session middleware keeps in the memory of the process, as two maps
    over the session id: [sessions] gives the serialised principal (a
    username) a session is bound to, [flashes] the flash messages (type
    and text) a session holds, and a session is stored when it has an
    entry in either; the counter [ObjectId]s are drawn from;
    [process.env]; and the condition of the connection to the database:
    [fault = Some e] makes every store operation reject with [e]. *)
Record World := mkWorld {
  users : list User.doc;
  projects : list Project.doc;
  clubs : list Club.doc;
  userdetails : list userdetail.doc;
  sessions : gmap string value;
  flashes : gmap string (list (string * string));
  next_oid : nat;
  env : gmap string string;
  fault : option Error
}.

Definition set_users (f : list User.doc → list User.doc) (w : World) : World :=
  mkWorld (f (users w)) (projects w) (clubs w) (userdetails w) (sessions w)
    (flashes w) (next_oid w) (env w) (fault w).
Definition set_projects (f : list Project.doc → list Project.doc) (w : World) : World :=
  mkWorld (users w) (f (projects w)) (clubs w) (userdetails w) (sessions w)
    (flashes w) (next_oid w) (env w) (fault w).
Definition set_clubs (f : list Club.doc → list Club.doc) (w : World) : World :=
  mkWorld (users w) (projects w) (f (clubs w)) (userdetails w) (sessions w)
    (flashes w) (next_oid w) (env w) (fault w).
Definition set_userdetails (f : list userdetail.doc → list userdetail.doc) (w : World) : World :=
  mkWorld (users w) (projects w) (clubs w) (f (userdetails w)) (sessions w)
    (flashes w) (next_oid w) (env w) (fault w).
Definition set_sessions (f : gmap string value → gmap string value) (w : World) : World :=
  mkWorld (users w) (projects w) (clubs w) (userdetails w) (f (sessions w))
    (flashes w) (next_oid w) (env w) (fault w).
Definition set_flashes
    (f : gmap string (list (string * string)) → gmap string (list (string * string)))
    (w : World) : World :=
  mkWorld (users w) (projects w) (clubs w) (userdetails w) (sessions w)
    (f (flashes w)) (next_oid w) (env w) (fault w).
Definition set_next_oid (f : nat → nat) (w : World) : World :=
  mkWorld (users w) (projects w) (clubs w) (userdetails w) (sessions w)
    (flashes w) (f (next_oid w)) (env w) (fault w).

(** ** The handler monad: state and exceptions *)

Inductive outcome (A : Type) : Type :=
| Ok (a : A)
| Throw (e : Error).
Arguments Ok {A} a.
Arguments Throw {A} e.

Definition M (A : Type) : Type := World → outcome A * World.

Global Instance M_ret : MRet M := λ A a w, (Ok a, w).

Global Instance M_bind : MBind M := λ A B k m w,
  match m w with
  | (Ok a, w') => k a w'
  | (Throw e, w') => (Throw e, w')
  end.

Definition throw {A} (e : Error) : M A := λ w, (Throw e, w).

(** [try { m } catch (error) { h error }] *)
Definition try_catch {A} (m : M A) (h : Error → M A) : M A := λ w,
  match m w with
  | (Ok a, w') => (Ok a, w')
  | (Throw e, w') => h e w'
  end.

Definition get_world : M World := λ w, (Ok w, w).
Definition modify (f : World → World) : M unit := λ w, (Ok (), f w).

(** A store operation: rejects when the connection is at fault. *)
Definition store {A} (op : M A) : M A := λ w,
  match fault w with
  | Some e => (Throw e, w)
  | None => op w
  end.

(** [new Model(...)] gives the document its [_id]. *)
Definition new_oid : M nat := λ w, (Ok (next_oid w), set_next_oid S w).

(** ** What the runtime supplies *)

(** Parts of the platform the server runs on that [app.js] uses and does
    not define: the slow salted one-way hash and the salt it draws, the
    session-id generator of the session middleware, the message, if any,
    that the verify function of the User model hands passport together
    with a failure ([models/user.js] is not part of [app.js]), and, for
    each model whose schema file is not part of [app.js], the check a
    [save] makes (schema validation and the constraints of the
    collection); [None] lets the document through. *)
Class Runtime := {
  kdf : string → value → string;
  random_salt : World → string;
  gen_sid : gmap string value → string;
  AuthFailure_message : option string;
  Project_check : list Project.doc → Project.doc → option Error;
  Club_check : list Club.doc → Club.doc → option Error;
  userdetail_check : list userdetail.doc → userdetail.doc → option Error
}.

(** ** HTTP *)

(** The route Express selects from the request's method and path.
    [express.static], which sits in front of the router and serves the
    files of the built frontend, is not modelled. *)
Inductive Route : Type :=
| GET_health
| POST_signup
| POST_login
| POST_clublogin
| GET_listings
| GET_clubpost
| GET_userpage
| GET_people
| GET_userdetails (fullName : string)
| POST_makeproj
| POST_clublisting
| POST_userpage
| GET_any (path : string)
| NoRoute (method path : string).

(** A request as the client sends it.  [cookie] is the session id the
    signed session cookie carries ([None]: no cookie, or one whose
    signature does not verify); [secure] tells whether the request came
    over TLS (as seen through the trusted proxy); [file] holds the bytes
    of an uploaded [posterImage]. *)
Record Request := mkRequest {
  route : Route;
  body : gmap string value;
  query : gmap string value;
  cookie : option string;
  secure : bool;
  file : option string
}.

(** The request object the middlewares pass along: [req.user],
    [req.userDetails], and the id of a session created while the request
    is served. *)
Record Req := mkReq {
  request : Request;
  user : option Principal.t;
  userDetails : option userdetail.doc;
  new_session : option string
}.

Module Cookie.
Record options := mk {
  httpOnly : bool;
  sameSite : string;
  secure : bool
}.
End Cookie.

Record SessionOptions := mkSessionOptions {
  secret : string;
  resave : bool;
  saveUninitialized : bool;
  cookie_options : Cookie.options
}.

Inductive Body : Type :=
| BJson (v : value)
| BText (s : string)
| BFile (path : string).

(** [set_cookie]: the session cookie the response sets, with its
    attributes. *)
Record Response := mkResponse {
  status : nat;
  rbody : Body;
  set_cookie : option (string * Cookie.options)
}.

Definition res_json (v : value) : Response := mkResponse 200 (BJson v) None.
Definition res_status_json (code : nat) (v : value) : Response :=
  mkResponse code (BJson v) None.
Definition res_status_send (code : nat) (s : string) : Response :=
  mkResponse code (BText s) None.

(** A middleware either answers the request or calls [next()] with the
    request object as it left it. *)
Definition Middleware : Type := Req → M (Response + Req).
Definition Handler : Type := Req → M Response.

(** ** Session options (app.js, lines 57-68) *)

Definition is_production (e : gmap string string) : bool :=
  bool_decide (e !! "NODE_ENV" = Some "production").

Definition sessionOptions (e : gmap string string) : SessionOptions :=
  {| secret := match e !! "SESSION_SECRET" with
               | Some s => if String.eqb s "" then "change_this" else s
               | None => "change_this"
               end;
     resave := false;
     saveUninitialized := false;
     cookie_options := {| Cookie.httpOnly := true;
                          Cookie.sameSite := "lax";
                          Cookie.secure := is_production e |} |}.

Section Server.
Context `{Runtime}.

(** ** Store operations *)

Definition Project_find : M (list Project.doc) :=
  store (λ w, (Ok (projects w), w)).

Definition Club_find : M (list Club.doc) :=
  store (λ w, (Ok (clubs w), w)).

Definition userdetail_find : M (list userdetail.doc) :=
  store (λ w, (Ok (userdetails w), w)).

(** [userdetail.findOne({ email })] *)
Definition userdetail_findOne_email (email : value) : M (option userdetail.doc) :=
  store (λ w, (Ok (List.find (λ d, value_eqb (userdetail.email d) email)
                     (userdetails w)), w)).

(** [userdetail.findOne({ fullName })] *)
Definition userdetail_findOne_fullName (fullName : value) : M (option userdetail.doc) :=
  store (λ w, (Ok (List.find (λ d, value_eqb (userdetail.fullName d) fullName)
                     (userdetails w)), w)).

(** [doc.save()] of a document made by [new Project(...)]. *)
Definition Project_save (p : Project.doc) : M Project.doc := λ w,
  match Project_check (projects w) p with
  | Some e => (Throw e, w)
  | None => store (λ w, (Ok p, set_projects (λ ps, (ps ++ [p])%list) w)) w
  end.

Definition Club_save (c : Club.doc) : M Club.doc := λ w,
  match Club_check (clubs w) c with
  | Some e => (Throw e, w)
  | None => store (λ w, (Ok c, set_clubs (λ cs, (cs ++ [c])%list) w)) w
  end.

(** [details.save()]: a document made by [new userdetail(...)] is
    inserted, one that [findOne] returned replaces the stored document
    with its [_id]. *)
Definition replace_detail (d : userdetail.doc) (ds : list userdetail.doc) :
    list userdetail.doc :=
  map (λ x, if Nat.eqb (userdetail._id x) (userdetail._id d) then d else x) ds.

Definition userdetail_save (isNew : bool) (d : userdetail.doc) : M userdetail.doc := λ w,
  match userdetail_check (userdetails w) d with
  | Some e => (Throw e, w)
  | None =>
      store (λ w, (Ok d, set_userdetails
                           (if isNew then (λ ds, (ds ++ [d])%list) else replace_detail d) w)) w
  end.

(** ** The User model (models/user.js) *)

Definition DuplicateIdentity : Error :=
  mkError "DuplicateIdentity" "A user with the given identity is already registered".

Definition same_identity (a b : User.doc) : bool :=
  value_eqb (User.username a) (User.username b)
  || value_eqb (User.email a) (User.email b).

Definition with_secret (u : User.doc) (h s : string) : User.doc :=
  User.mk (User._id u) (User.firstname u) (User.lastname u) (User.username u)
    (User.email u) (User.campus1 u) h s.

(** Modelled from the spec: [User.register] of [models/user.js], which is
    not part of [app.js].  Section 4.1: it rejects with
    [DuplicateIdentity] if the username or the email already exists;
    otherwise it derives a salted hash from the plaintext password, stores
    hash and salt, and returns the created principal with the secret
    fields stripped. *)
Definition User_register (candidate : User.doc) (password : value) : M Principal.t :=
  store (λ w,
    if existsb (same_identity candidate) (users w)
    then (Throw DuplicateIdentity, w)
    else
      let s := random_salt w in
      let u := with_secret candidate (kdf s password) s in
      (Ok (strip u), set_users (λ us, (us ++ [u])%list) w)).

(** Modelled from the spec: the verify function [User.authenticate()] of
    [models/user.js] returns.  Section 4.1: it looks the user up by
    username; if absent the result is [AuthFailure] ([None]); if found it
    recomputes the hash with the stored salt and compares; success returns
    the principal without the secret fields, failure [AuthFailure]. *)
Definition User_verify (username password : value) : M (option Principal.t) :=
  store (λ w,
    match List.find (λ u, value_eqb (User.username u) username) (users w) with
    | None => (Ok None, w)
    | Some u =>
        if String.eqb (kdf (User.salt u) password) (User.hash u)
        then (Ok (Some (strip u)), w)
        else (Ok None, w)
    end).

(** Modelled from the spec: [User.serializeUser()] of [models/user.js]:
    the principal's identity as it is put into the session state. *)
Definition User_serializeUser (p : Principal.t) : value := Principal.username p.

(** Modelled from the spec: [User.deserializeUser()] of [models/user.js]:
    resolves the serialised identity back to a principal, or to none. *)
Definition User_deserializeUser (token : value) : M (option Principal.t) :=
  store (λ w,
    (Ok (strip <$> List.find (λ u, value_eqb (User.username u) token) (users w)), w)).

(** ** The session gate *)

(** [session(sessionOptions)] followed by [passport.session()]: the
    cookie is resolved to a live session and the session's principal is
    attached as [req.user]; anything that does not resolve leaves
    [req.user] undefined. *)
Definition session_gate (r : Request) : M (option Principal.t) :=
  w ← get_world;
  match cookie r with
  | None => mret None
  | Some sid =>
      match sessions w !! sid with
      | None => mret None
      | Some token => User_deserializeUser token
      end
  end.

(** Modelled from the spec: the [Unauthorized] failure of sections 4.3
    and 7, which [./middleware] answers with when there is no valid
    session; an authorization-failure status. *)
Definition Unauthorized : Response := res_status_send 401 "Unauthorized".

(** Modelled from the spec: [isLoggedIn] of [./middleware], which is not
    part of [app.js].  Section 4.3: called in the Anonymous state it fails
    with [Unauthorized] and the handler is short-circuited; in the
    Authenticated state it succeeds and the request goes on. *)
Definition isLoggedIn : Middleware := λ req,
  match user req with
  | None => mret (inl Unauthorized)
  | Some _ => mret (inr req)
  end.

(** The session middleware sets the cookie of a session created while the
    request was served when the response headers are written; a cookie
    configured [secure] is only sent over a secure connection. *)
Definition session_set_cookie (req : Req) (res : Response) : M Response :=
  w ← get_world;
  let opts := cookie_options (sessionOptions (env w)) in
  match new_session req with
  | Some sid =>
      if Cookie.secure opts && negb (secure (request req))
      then mret res
      else mret (mkResponse (status res) (rbody res) (Some (sid, opts)))
  | None => mret res
  end.

Definition stored_session (w : World) (sid : string) : bool :=
  match sessions w !! sid, flashes w !! sid with
  | None, None => false
  | _, _ => true
  end.

(** The stored session the request came with, if its cookie names one. *)
Definition request_session (w : World) (r : Request) : option string :=
  match cookie r with
  | Some sid => if stored_session w sid then Some sid else None
  | None => None
  end.

(** [req.flash(type, msg)] of connect-flash ([app.use(flash())]): the
    message is pushed onto the flash of the request's session.  That
    modifies the session, so the session middleware stores it although
    [saveUninitialized] is false; a session that was not stored before is
    a new one and gets its cookie with the response. *)
Definition req_flash (req : Req) (type msg : string) : M Req :=
  w ← get_world;
  match request_session w (request req) with
  | Some sid =>
      _ ← modify (set_flashes
                    (λ m, <[sid := (default [] (m !! sid) ++ [(type, msg)])%list]> m));
      mret req
  | None =>
      let sid := gen_sid (sessions w) in
      _ ← modify (set_flashes (insert sid [(type, msg)]));
      mret (mkReq (request req) (user req) (userDetails req) (Some sid))
  end.

(** [req.session.regenerate]: the session the request came with is
    destroyed. *)
Definition destroy_session (sid : string) (w : World) : World :=
  set_flashes (delete sid) (set_sessions (delete sid) w).

(** [req.logIn] as [passport.authenticate] calls it on success: the
    session is regenerated, the new session is bound to the serialised
    principal and the principal becomes [req.user]. *)
Definition logIn (req : Req) (p : Principal.t) : M Req :=
  w ← get_world;
  let sid := gen_sid (sessions w) in
  _ ← match cookie (request req) with
      | Some old => modify (destroy_session old)
      | None => mret ()
      end;
  _ ← modify (set_sessions (insert sid (User_serializeUser p)));
  mret (mkReq (request req) (Some p) (userDetails req) (Some sid)).

(** [lookup] of passport-local: the value under the key when it is a
    string, a number or a boolean; [null] when the key is absent or holds
    [null], an array or an object. *)
Definition lookup (o : gmap string value) (k : string) : value :=
  match field o k with
  | VBool b => VBool b
  | VNum n => VNum n
  | VStr s => VStr s
  | _ => VNull
  end.

(** [lookup(req.body, k) || lookup(req.query, k)] *)
Definition lookup_credential (r : Request) (k : string) : value :=
  js_or (lookup (body r) k) (lookup (query r) k).

Definition missing_credentials : Response := res_status_send 400 "Bad Request".
Definition auth_failure : Response := res_status_send 401 "Unauthorized".

(** passport's answer to a failed attempt when no failure redirect is
    given.  With [failureFlash: true] the strategy's message, when it is a
    string, is flashed into the session; then the response is ended with
    the failure's status (401 unless the strategy gave one) and the
    standard text of that status. *)
Definition passport_fail (req : Req) (message : option string) (res : Response) :
    M (Response + Req) :=
  req' ← match message with
         | Some msg => req_flash req "error" msg
         | None => mret req
         end;
  res' ← session_set_cookie req' res;
  mret (inl res').

(** [passport.authenticate('local', { failureFlash: true })] with the
    local strategy over [User.authenticate()].  The strategy fails with
    the message "Missing credentials" and status 400 when the username or
    the password is missing, and with the message of the verify function
    and no status when verification fails. *)
Definition passport_authenticate_local : Middleware := λ req,
  let username := lookup_credential (request req) "username" in
  let password := lookup_credential (request req) "password" in
  if negb (truthy username) || negb (truthy password)
  then passport_fail req (Some "Missing credentials") missing_credentials
  else
    r ← User_verify username password;
    match r with
    | None => passport_fail req AuthFailure_message auth_failure
    | Some p => req' ← logIn req p; mret (inr req')
    end.

(** [app.METHOD(path, mw, handler)] *)
Definition guarded (mw : Middleware) (h : Handler) : Handler := λ req,
  r ← mw req;
  match r with
  | inl res => mret res
  | inr req' => h req'
  end.

(** ** Documents as JSON *)

Definition Project_json (p : Project.doc) : value :=
  json_obj [("_id", VId (Project._id p)); ("name", Project.name p);
            ("desc", Project.desc p); ("num", Project.num p);
            ("type", Project.type p); ("createdBy", Project.createdBy p)].

Definition Club_json (c : Club.doc) : value :=
  json_obj [("_id", VId (Club._id c)); ("clubName", Club.clubName c);
            ("type", Club.type c); ("description", Club.description c);
            ("googleFormLink", Club.googleFormLink c);
            ("posterImage", Club.posterImage c)].

Definition userdetail_json (d : userdetail.doc) : value :=
  json_obj [("_id", VId (userdetail._id d)); ("phone", userdetail.phone d);
            ("instagram", userdetail.instagram d);
            ("twitter", userdetail.twitter d);
            ("linkedIn", userdetail.linkedIn d);
            ("github", userdetail.github d);
            ("fullName", userdetail.fullName d);
            ("email", userdetail.email d); ("campus", userdetail.campus d);
            ("skills", userdetail.skills d);
            ("projects", userdetail.projects d)].

(** The projection ['fullName skills -_id']. *)
Definition people_json (d : userdetail.doc) : value :=
  json_obj [("fullName", userdetail.fullName d); ("skills", userdetail.skills d)].

(** ** Routes (app.js, lines 78-229) *)

Definition health : Handler := λ _req, mret (res_status_send 200 "ok").

Definition signup_success : Response :=
  res_json (json_obj [("status", VStr "success"); ("message", VStr "Signup successful")]).
Definition signup_error : Response :=
  res_status_json 500
    (json_obj [("status", VStr "error"); ("message", VStr "Error during signup")]).

Definition signup : Handler := λ req,
  try_catch
    (let b := body (request req) in
     let firstname := field b "firstname" in
     let lastname := field b "lastname" in
     let username := field b "username" in
     let email := field b "email" in
     let password := field b "password" in
     let campus1 := field b "campus1" in
     if negb (truthy campus1) then throw (mkError "Error" "Campus is required")
     else
       id ← new_oid;
       let newUser := User.mk id firstname lastname username email campus1 "" "" in
       _ ← User_register newUser password;
       mret signup_success)
    (λ error, mret signup_error).

Definition welcome : Response :=
  res_json (json_obj [("status", VStr "success"); ("message", VStr "Welcome")]).

(** The handler of [/login] and of [/clublogin]; the response leaves
    through the session middleware, which sets the cookie. *)
Definition login : Handler :=
  guarded passport_authenticate_local (λ req, session_set_cookie req welcome).

Definition clublogin : Handler :=
  guarded passport_authenticate_local (λ req, session_set_cookie req welcome).

Definition listings : Handler := λ _req,
  try_catch
    (projects ← Project_find;
     mret (res_json (VArr (map Project_json projects))))
    (λ error,
       mret (res_status_json 500
               (json_obj [("error", VStr "Error fetching project data")]))).

Definition clubpost : Handler := λ _req,
  try_catch
    (clubs ← Club_find;
     mret (res_json (VArr (map Club_json clubs))))
    (λ err,
       mret (res_status_json 400 (json_obj [("error", VStr (Error_toString err))]))).

Definition getUserDetails : Middleware := λ req,
  try_catch
    (match user req with
     | None =>
         mret (inl (res_status_json 401
                      (json_obj [("error", VStr "Not authenticated")])))
     | Some u =>
         details ← userdetail_findOne_email (Principal.email u);
         mret (inr (mkReq (request req) (user req) details (new_session req)))
     end)
    (λ error,
       mret (inl (res_status_json 500
                    (json_obj [("error", VStr "Error fetching user details")])))).

(** [res.json(req.userDetails || {})] *)
Definition userpage_get : Handler :=
  guarded isLoggedIn (guarded getUserDetails (λ req,
    mret (res_json (match userDetails req with
                    | Some d => userdetail_json d
                    | None => VObj []
                    end)))).

Definition people : Handler := λ _req,
  try_catch
    (people ← userdetail_find;
     mret (res_json (VArr (map people_json people))))
    (λ err,
       mret (res_status_json 500 (json_obj [("message", VStr (emessage err))]))).

Definition userdetails_fullName (fullName : string) : Handler := λ _req,
  try_catch
    (user ← userdetail_findOne_fullName (VStr fullName);
     match user with
     | None => mret (res_status_json 404 (json_obj [("message", VStr "User not found")]))
     | Some d => mret (res_json (userdetail_json d))
     end)
    (λ error, mret (res_status_json 500 (json_obj [("message", VStr "Server error")]))).

(** [req.user._id]: reading a property of [undefined] throws. *)
Definition req_user_id (req : Req) : M value :=
  match user req with
  | Some u => mret (VId (Principal._id u))
  | None => throw (TypeError "Cannot read properties of undefined (reading '_id')")
  end.

Definition makeproj_error : Response :=
  res_status_json 500
    (json_obj [("status", VStr "error");
               ("message", VStr "Error during project creation")]).

Definition makeproj_handler : Handler := λ req,
  try_catch
    (userId ← req_user_id req;
     let b := body (request req) in
     let name := field b "name" in
     let desc := field b "desc" in
     let num := field b "num" in
     let type := field b "type" in
     id ← new_oid;
     savedProject ← Project_save (Project.mk id name desc num type userId);
     mret (res_json (json_obj [("status", VStr "success");
                               ("id", VId (Project._id savedProject))])))
    (λ error, mret makeproj_error).

Definition makeproj : Handler := guarded isLoggedIn makeproj_handler.

(** [multer({ storage: memoryStorage(), limits: { fileSize: 5 * 1024 * 1024 } })]
    with [upload.single('posterImage')]: a file over the limit is passed
    to [next] as an error. *)
Definition fileSize_limit : Z := 5 * 1024 * 1024.

Definition upload_single : Middleware := λ req,
  match file (request req) with
  | Some data =>
      if (fileSize_limit <? Z.of_nat (String.length data))%Z
      then throw (mkError "MulterError" "File too large")
      else mret (inr req)
  | None => mret (inr req)
  end.

(** [req.file?.buffer] *)
Definition file_buffer (req : Req) : value :=
  match file (request req) with
  | Some data => VBuf data
  | None => VUndefined
  end.

Definition clublisting : Handler :=
  guarded upload_single (λ req,
    try_catch
      (let b := body (request req) in
       id ← new_oid;
       let newClub :=
         Club.mk id (field b "clubName") (field b "type") (field b "description")
           (field b "googleFormLink") (file_buffer req) in
       _ ← Club_save newClub;
       mret (res_json (json_obj [("status", VStr "success");
                                 ("message", VStr "Club added!")])))
      (λ err,
         mret (res_status_json 400
                 (json_obj [("error", VStr (Error_toString err))])))).

(** [Object.assign(details, { phone, instagram, twitter, linkedIn, github,
    fullName, campus, skills, projects })] *)
Definition Object_assign (details : userdetail.doc)
    (phone instagram twitter linkedIn github fullName campus skills projects : value) :
    userdetail.doc :=
  userdetail.mk (userdetail._id details) phone instagram twitter linkedIn github
    fullName (userdetail.email details) campus skills projects.

Definition userpage_post : Handler := λ req,
  try_catch
    (let b := body (request req) in
     let phone := field b "phone" in
     let instagram := field b "instagram" in
     let twitter := field b "twitter" in
     let linkedIn := field b "linkedIn" in
     let github := field b "github" in
     let fullName := field b "fullName" in
     let email := field b "email" in
     let campus := field b "campus" in
     let skills := field b "skills" in
     let projects := field b "projects" in
     found ← userdetail_findOne_email email;
     saved ←
       match found with
       | None =>
           id ← new_oid;
           userdetail_save true
             (userdetail.mk id phone instagram twitter linkedIn github fullName
                email campus skills projects)
       | Some details =>
           userdetail_save false
             (Object_assign details phone instagram twitter linkedIn github
                fullName campus skills projects)
       end;
     mret (mkResponse 200 (BJson (userdetail_json saved)) None))
    (λ error,
       mret (res_status_send 500
               ("An error occurred while saving user details: "
                ++ Error_toString error))).

(** [app.get('*')]: the index page of the built frontend (the file
    system is not modelled: the page is taken to be there). *)
Definition catch_all : Handler := λ _req,
  mret (mkResponse 200 (BFile "FRONTEND/dist/index.html") None).

(** ** The application *)

Definition router : Handler := λ req,
  match route (request req) with
  | GET_health => health req
  | POST_signup => signup req
  | POST_login => login req
  | POST_clublogin => clublogin req
  | GET_listings => listings req
  | GET_clubpost => clubpost req
  | GET_userpage => userpage_get req
  | GET_people => people req
  | GET_userdetails fullName => userdetails_fullName fullName req
  | POST_makeproj => makeproj req
  | POST_clublisting => clublisting req
  | POST_userpage => userpage_post req
  | GET_any _ => catch_all req
  | NoRoute method path => mret (res_status_send 404 ("Cannot " ++ method ++ " " ++ path))
  end.

(** An error handed to [next] (by the session gate, by passport, by
    multer) reaches Express's default error handler: status 500 and an
    HTML page that shows, outside production, the error with its stack
    and, in production, the status text.  The body keeps the text of that
    page, the stack cut down to the line of the error. *)
Definition default_error_handler (e : Error) : M Response :=
  w ← get_world;
  mret (res_status_send 500
          (if is_production (env w) then "Internal Server Error"
           else Error_toString e)).

(** One request through the middleware stack: session gate, then the
    router. *)
Definition app (r : Request) : M Response :=
  try_catch
    (u ← session_gate r;
     router (mkReq r u None None))
    default_error_handler.

(** ** The states of a request *)

(** The Anonymous state of a request, as the specification has it: no
    session cookie, or a cookie that does not resolve to a live
    session. *)
Definition Anonymous (w : World) (r : Request) : Prop :=
  match cookie r with
  | None => True
  | Some sid => sessions w !! sid = None
  end.

(** The Authenticated state: the cookie resolves to a live session that
    references the principal. *)
Definition Authenticated (w : World) (r : Request) (p : Principal.t) : Prop :=
  (session_gate r w).1 = Ok (Some p).

(** ** Notions the properties are stated with *)

(** Serving [r] in state [w] adds the project record [q]. *)
Definition creates_project (r : Request) (w : World) (q : Project.doc) : Prop :=
  ∃ res w', app r w = (Ok res, w') ∧ projects w' = (projects w ++ [q])%list.

(** The project [/makeproj] builds for the principal [p] from the body of
    [r] in state [w]. *)
Definition project_of (w : World) (r : Request) (p : Principal.t) : Project.doc :=
  Project.mk (next_oid w) (field (body r) "name") (field (body r) "desc")
    (field (body r) "num") (field (body r) "type") (VId (Principal._id p)).


(** The stored profile a submission with body [b] selects. *)
Definition profile_for (w : World) (b : gmap string value) : option userdetail.doc :=
  List.find (λ x, value_eqb (userdetail.email x) (field b "email")) (userdetails w).

(** The profile [d] after [Object.assign] with the fields of [b]. *)
Definition updated_profile (d : userdetail.doc) (b : gmap string value) : userdetail.doc :=
  Object_assign d (field b "phone") (field b "instagram") (field b "twitter")
    (field b "linkedIn") (field b "github") (field b "fullName")
    (field b "campus") (field b "skills") (field b "projects").

(** The profile [new userdetail(...)] makes from [b]. *)
Definition new_profile (id : nat) (b : gmap string value) : userdetail.doc :=
  userdetail.mk id (field b "phone") (field b "instagram") (field b "twitter")
    (field b "linkedIn") (field b "github") (field b "fullName")
    (field b "email") (field b "campus") (field b "skills") (field b "projects").

Definition profile_saved (d : userdetail.doc) : Response :=
  mkResponse 200 (BJson (userdetail_json d)) None.

Definition profile_error (e : Error) : Response :=
  res_status_send 500
    ("An error occurred while saving user details: " ++ Error_toString e).


(** The stored user with the given username. *)
Definition user_named (w : World) (username : value) : option User.doc :=
  List.find (λ u, value_eqb (User.username u) username) (users w).

(** The password hashes, with the user's salt, to the user's hash. *)
Definition password_matches (u : User.doc) (password : value) : bool :=
  String.eqb (kdf (User.salt u) password) (User.hash u).

(** Both credentials are present. *)
Definition credentials_present (r : Request) : bool :=
  truthy (lookup_credential r "username") && truthy (lookup_credential r "password").

(** The cookie a login in state [w] sets, if it sets one. *)
Definition login_cookie (w : World) (r : Request) : option (string * Cookie.options) :=
  let opts := cookie_options (sessionOptions (env w)) in
  if Cookie.secure opts && negb (secure r) then None
  else Some (gen_sid (sessions w), opts).

(** The profile stored for the principal [p]. *)
Definition profile_of (w : World) (p : Principal.t) : option userdetail.doc :=
  List.find (λ d, value_eqb (userdetail.email d) (Principal.email p)) (userdetails w).


(** The candidate [new User(...)] makes from the signup body [b]. *)
Definition signup_candidate (id : nat) (b : gmap string value) : User.doc :=
  User.mk id (field b "firstname") (field b "lastname") (field b "username")
    (field b "email") (field b "campus1") "" "".

(** A registered user already has the username or the email of [b]. *)
Definition identity_taken (w : World) (b : gmap string value) : Prop :=
  ∃ u, In u (users w)
       ∧ (User.username u = field b "username" ∨ User.email u = field b "email").


(** A refused signup: status 500, the generic error while the store
    answers, and the users as they were. *)
Definition refused (w : World) (res : Response) (w' : World) : Prop :=
  status res = 500 ∧ users w' = users w ∧ (fault w = None → res = signup_error).

(** The state with the secret material of every user blanked: what is
    left is everything that is not a credential. *)
Definition forget_secret (u : User.doc) : User.doc := with_secret u "" "".

Definition public_of (w : World) : World := set_users (map forget_secret) w.

(** The text Express's default error handler answers with. *)
Definition error_page (w : World) (e : Error) : Response :=
  res_status_send 500
    (if is_production (env w) then "Internal Server Error" else Error_toString e).

(** The state after the login of [u]: the session the request came with
    is gone and a new session is bound to the user. *)
Definition logged_in (w : World) (r : Request) (u : User.doc) : World :=
  set_sessions (insert (gen_sid (sessions w)) (User.username u))
    (match cookie r with
     | Some old => destroy_session old w
     | None => w
     end).

(** The state after a failed login flashed [message]: the message is
    added to the stored session the request came with, or put into a new
    session. *)
Definition flashed (w : World) (r : Request) (message : option string) : World :=
  match message with
  | None => w
  | Some msg =>
      match request_session w r with
      | Some sid =>
          set_flashes
            (λ m, <[sid := (default [] (m !! sid) ++ [("error", msg)])%list]> m) w
      | None => set_flashes (insert (gen_sid (sessions w)) [("error", msg)]) w
      end
  end.

(** The cookie the answer to a failed login sets: the cookie of the new
    session, when the flash made one. *)
Definition refusal_cookie (w : World) (r : Request) (message : option string) :
    option (string * Cookie.options) :=
  match message with
  | None => None
  | Some _ =>
      match request_session w r with
      | Some _ => None
      | None => login_cookie w r
      end
  end.



(** The responses of the login routes: the welcome with the session
    cookie, the two failures, each with or without the cookie of a new
    session, and the error page when the store is at fault. *)
Definition login_response (w : World) (r : Request) (res : Response) : Prop :=
  res = mkResponse 200 (rbody welcome) (login_cookie w r)
  ∨ (∃ c, (c = None ∨ c = login_cookie w r)
          ∧ (res = mkResponse 401 (BText "Unauthorized") c
             ∨ res = mkResponse 400 (BText "Bad Request") c))
  ∨ ∃ e, fault w = Some e ∧ res = error_page w e.

(** The responses of the signup route. *)
Definition signup_response (w : World) (res : Response) : Prop :=
  res = signup_success
  ∨ res = signup_error
  ∨ ∃ e, fault w = Some e ∧ res = error_page w e.


(** ** Notions for the properties of the other routes *)

(** The routes whose handlers only read. *)
Definition reads_only (rt : Route) : bool :=
  match rt with
  | GET_health | GET_listings | GET_clubpost | GET_userpage | GET_people
  | GET_userdetails _ | GET_any _ | NoRoute _ _ => true
  | _ => false
  end.

(** The routes whose handlers go to the store. *)
Definition uses_store (rt : Route) : bool :=
  match rt with
  | GET_health | GET_any _ | NoRoute _ _ => false
  | _ => true
  end.

(** The two states hold the same documents. *)
Definition same_documents (w w' : World) : Prop :=
  users w' = users w ∧ projects w' = projects w ∧ clubs w' = clubs w
  ∧ userdetails w' = userdetails w.

(** The club [/clublisting] builds from the request [r] in state [w]. *)
Definition club_of (w : World) (r : Request) : Club.doc :=
  Club.mk (next_oid w) (field (body r) "clubName") (field (body r) "type")
    (field (body r) "description") (field (body r) "googleFormLink")
    (file_buffer (mkReq r None None None)).

(** The uploaded file, if there is one, is within multer's limit. *)
Definition within_limit (r : Request) : Prop :=
  match file r with
  | Some data => (Z.of_nat (String.length data) ≤ fileSize_limit)%Z
  | None => True
  end.

Definition club_added : Response :=
  res_json (json_obj [("status", VStr "success"); ("message", VStr "Club added!")]).

Definition user_not_found : Response :=
  res_status_json 404 (json_obj [("message", VStr "User not found")]).

Definition not_authenticated : Response :=
  res_status_json 401 (json_obj [("error", VStr "Not authenticated")]).

(** A guard that lets every request through as it came. *)
Definition open_guard : Middleware := λ req, mret (inr req).


End Server.

(** ** Sample data

    A concrete runtime, a small state and a few requests on which the
    properties below are exercised. *)

Module Sample.

Definition toy_kdf (s : string) (p : value) : string :=
  match p with
  | VStr x => "h(" ++ s ++ "," ++ x ++ ")"
  | _ => "h(" ++ s ++ ")"
  end.

Definition rt : Runtime := {|
  kdf := toy_kdf;
  random_salt := λ w, "salt" ++ pretty (length (users w));
  gen_sid := λ m, "sid" ++ pretty (size m);
  AuthFailure_message := Some "Password or username is incorrect";
  Project_check := λ _ _, None;
  Club_check := λ _ _, None;
  userdetail_check := λ _ _, None |}.

Definition obj (l : list (string * value)) : gmap string value := list_to_map l.

Definition alice : User.doc :=
  User.mk 1 (VStr "Alice") (VStr "Liddell") (VStr "alice") (VStr "a@x.com")
    (VStr "Main") (toy_kdf "s1" (VStr "p1")) "s1".

Definition bob : User.doc :=
  User.mk 2 (VStr "Bob") (VStr "Builder") (VStr "bob") (VStr "b@x.com")
    (VStr "North") (toy_kdf "s2" (VStr "p2")) "s2".

Definition alice_details : userdetail.doc :=
  userdetail.mk 3 (VStr "555-0100") VUndefined VUndefined VUndefined
    (VStr "alice-gh") (VStr "Alice Liddell") (VStr "a@x.com") (VStr "Main")
    (VArr [VStr "rocq"]) (VArr []).

(** Alice and Bob are registered and each holds a live session; Alice
    has a profile, Bob has none. *)
Definition w0 : World :=
  mkWorld [alice; bob] [] [] [alice_details]
    (list_to_map [("sidA", VStr "alice"); ("sidB", VStr "bob")]) ∅
    10 ∅ None.


Definition project_body : gmap string value :=
  obj [("name", VStr "Rover"); ("desc", VStr "A campus rover"); ("num", VNum 3);
       ("type", VStr "hardware"); ("createdBy", VId 2)].

Definition makeproj_request (cookie : option string) : Request :=
  mkRequest POST_makeproj project_body ∅ cookie true None.

Definition userpage_request (cookie : option string) : Request :=
  mkRequest GET_userpage ∅ ∅ cookie true None.

Definition login_request (fields : list (string * value)) (secure : bool) : Request :=
  mkRequest POST_login (obj fields) ∅ None secure None.

Definition signup_request (fields : list (string * value)) : Request :=
  mkRequest POST_signup (obj fields) ∅ None true None.

(** The payload as the specification lists it, with the key [campus]. *)
Definition carol_fields_campus : list (string * value) :=
  [("firstname", VStr "Carol"); ("lastname", VStr "C"); ("username", VStr "carol");
   ("email", VStr "c@x.com"); ("password", VStr "p3"); ("campus", VStr "Main")].

(** The payload as the handler reads it, with the key [campus1]. *)
Definition carol_fields : list (string * value) :=
  [("firstname", VStr "Carol"); ("lastname", VStr "C"); ("username", VStr "carol");
   ("email", VStr "c@x.com"); ("password", VStr "p3"); ("campus1", VStr "Main")].

(** A profile submission that names Alice's email. *)
Definition overwrite_body : gmap string value :=
  obj [("phone", VStr "000"); ("fullName", VStr "Mallory"); ("email", VStr "a@x.com");
       ("skills", VArr [])].

Definition profile_request (cookie : option string) : Request :=
  mkRequest POST_userpage overwrite_body ∅ cookie false None.

(** The state [w0] after Alice's hash and salt were replaced. *)
Definition alice_rehashed : User.doc :=
  User.mk 1 (VStr "Alice") (VStr "Liddell") (VStr "alice") (VStr "a@x.com")
    (VStr "Main") (toy_kdf "s9" (VStr "other")) "s9".

Definition w0_rehashed : World :=
  mkWorld [alice_rehashed; bob] [] [] [alice_details]
    (list_to_map [("sidA", VStr "alice"); ("sidB", VStr "bob")]) ∅
    10 ∅ None.


(** The state [w0] with the store unreachable. *)
Definition w0_down : World :=
  mkWorld [alice; bob] [] [] [alice_details]
    (list_to_map [("sidA", VStr "alice"); ("sidB", VStr "bob")]) ∅
    10 ∅ (Some (mkError "MongoNetworkError" "connection refused")).

Definition get_request (rt : Route) (cookie : option string) : Request :=
  mkRequest rt ∅ ∅ cookie false None.

Definition club_request (poster : option string) : Request :=
  mkRequest POST_clublisting
    (obj [("clubName", VStr "Chess"); ("type", VStr "games");
          ("description", VStr "Weekly blitz");
          ("googleFormLink", VStr "https://forms.example/chess")])
    ∅ None false poster.

(** Bob's first profile, under his own email. *)
Definition bob_profile_request : Request :=
  mkRequest POST_userpage
    (obj [("fullName", VStr "Bob Builder"); ("email", VStr "b@x.com");
          ("skills", VArr [VStr "masonry"])])
    ∅ (Some "sidB") false None.


End Sample.

(** * Properties *)

(** ** Values *)

Lemma value_eqb_eq : ∀ a b, value_eqb a b = true ↔ a = b.
Proof.
  fix IH 1. intros a b.
  destruct a, b; simpl; try (split; [discriminate | discriminate]); try tauto.
  - rewrite Bool.eqb_true_iff. split; congruence.
  - rewrite Z.eqb_eq. split; congruence.
  - rewrite String.eqb_eq. split; congruence.
  - rewrite Nat.eqb_eq. split; congruence.
  - rewrite String.eqb_eq. split; congruence.
  - revert items0.
    induction items as [|x xs IHxs]; intros [|y ys];
      try (split; [discriminate | discriminate]); try tauto.
    rewrite andb_true_iff, IH, IHxs.
    split; [intros [-> E]; congruence | intros E; split; congruence].
  - revert fields0.
    induction fields as [|[k x] xs IHxs]; intros [|[l y] ys];
      try (split; [discriminate | discriminate]); try tauto.
    rewrite !andb_true_iff, String.eqb_eq, IH, IHxs.
    split; [intros [[-> ->] E]; congruence | intros E; repeat split; congruence].
Qed.

Lemma value_eqb_refl (a : value) : value_eqb a a = true.
Proof. by apply value_eqb_eq. Qed.

(** ** The monad *)

Section Properties.
Context `{Runtime}.

Lemma bind_ok {A B} (m : M A) (k : A → M B) w a w' :
  m w = (Ok a, w') → (m ≫= k) w = k a w'.
Proof. intros E. unfold mbind, M_bind. by rewrite E. Qed.

Lemma bind_throw {A B} (m : M A) (k : A → M B) w e w' :
  m w = (Throw e, w') → (m ≫= k) w = (Throw e, w').
Proof. intros E. unfold mbind, M_bind. by rewrite E. Qed.

(** ** The session gate *)

(** The gate only reads. *)
Lemma session_gate_world r w : (session_gate r w).2 = w.
Proof.
  unfold session_gate, mbind, M_bind, get_world, mret, M_ret,
    User_deserializeUser, store.
  destruct (cookie r) as [sid|]; [|done].
  destruct (sessions w !! sid); [|done].
  by destruct (fault w).
Qed.

Lemma Anonymous_gate w r : Anonymous w r → session_gate r w = (Ok None, w).
Proof.
  unfold Anonymous, session_gate, mbind, M_bind, get_world, mret, M_ret.
  destruct (cookie r) as [sid|]; [|done]. by intros ->.
Qed.

Lemma Authenticated_gate w r p :
  Authenticated w r p → session_gate r w = (Ok (Some p), w).
Proof.
  unfold Authenticated. intros E.
  rewrite (surjective_pairing (session_gate r w)), E.
  by rewrite session_gate_world.
Qed.

Lemma Authenticated_no_fault w r p : Authenticated w r p → fault w = None.
Proof.
  unfold Authenticated, session_gate, mbind, M_bind, get_world, mret, M_ret,
    User_deserializeUser, store.
  destruct (cookie r) as [sid|]; [|done].
  destruct (sessions w !! sid); [|done].
  by destruct (fault w).
Qed.

(** ** Privileged routes in the Anonymous state *)

Lemma app_anonymous w r :
  Anonymous w r →
  app r w = try_catch (router (mkReq r None None None)) default_error_handler w.
Proof.
  intros Ha. unfold app, try_catch.
  by rewrite (bind_ok _ _ _ _ _ (Anonymous_gate _ _ Ha)).
Qed.

(** Without a principal the handler of [/makeproj] cannot even read
    [req.user._id]: whatever the guard in front of it does, it creates
    nothing. *)
Lemma makeproj_handler_no_user (req : Req) w :
  user req = None → makeproj_handler req w = (Ok makeproj_error, w).
Proof.
  intros E. unfold makeproj_handler, try_catch, req_user_id, mbind, M_bind.
  by rewrite E.
Qed.

(** The same holds behind any guard that neither touches the projects
    nor invents a principal. *)
Lemma makeproj_needs_principal (guard : Middleware) (req : Req) w :
  user req = None →
  (∀ x w', guard req w = (Ok x, w') →
     projects w' = projects w
     ∧ match x with inr req' => user req' = None | inl _ => True end) →
  (∀ e w', guard req w = (Throw e, w') → projects w' = projects w) →
  projects (guarded guard makeproj_handler req w).2 = projects w.
Proof.
  intros Hu Hok Hthrow. unfold guarded, mbind, M_bind.
  destruct (guard req w) as [[[res|req']|e] w']; simpl.
  - by destruct (Hok _ _ eq_refl).
  - destruct (Hok _ _ eq_refl) as [Hp Hu'].
    by rewrite makeproj_handler_no_user.
  - by apply (Hthrow e).
Qed.

(** [getUserDetails] refuses a request without a principal by itself. *)
Lemma getUserDetails_no_user (req : Req) w :
  user req = None →
  getUserDetails req w
  = (Ok (inl (res_status_json 401 (json_obj [("error", VStr "Not authenticated")]))), w).
Proof.
  intros E. unfold getUserDetails, try_catch. by rewrite E.
Qed.

(** C1: a request to a privileged route (POST /makeproj, GET /userpage)
    that arrives in the Anonymous state is answered by the guard with the
    Unauthorized response, status 401, and the state of the server is
    left exactly as it was: the wrapped handler has no effect, no project
    record is created. *)
Theorem anonymous_request_is_refused w r :
  Anonymous w r →
  route r = POST_makeproj ∨ route r = GET_userpage →
  app r w = (Ok Unauthorized, w) ∧ status Unauthorized = 401.
Proof.
  intros Ha Hr. split; [|done].
  rewrite app_anonymous by done.
  unfold router; simpl. by destruct Hr as [-> | ->].
Qed.

(** ** Project creation *)

Lemma app_authenticated w r p :
  Authenticated w r p →
  app r w = try_catch (router (mkReq r (Some p) None None)) default_error_handler w.
Proof.
  intros Ha. unfold app, try_catch.
  by rewrite (bind_ok _ _ _ _ _ (Authenticated_gate _ _ _ Ha)).
Qed.

(** What [/makeproj] does for an authenticated request. *)
Lemma makeproj_authenticated w r p :
  route r = POST_makeproj → Authenticated w r p →
  app r w =
    match Project_check (projects w) (project_of w r p) with
    | Some e => (Ok makeproj_error, set_next_oid S w)
    | None =>
        (Ok (res_json (json_obj [("status", VStr "success"); ("id", VId (next_oid w))])),
         set_projects (λ ps, (ps ++ [project_of w r p])%list) (set_next_oid S w))
    end.
Proof.
  intros Hr Ha. pose proof (Authenticated_no_fault _ _ _ Ha) as Hf.
  rewrite app_authenticated with (p := p) by done.
  unfold router; simpl; rewrite Hr.
  unfold try_catch, makeproj, guarded, isLoggedIn, makeproj_handler, try_catch,
    req_user_id, new_oid, Project_save, store, mbind, M_bind, mret, M_ret; simpl.
  fold (project_of w r p).
  destruct (Project_check (projects w) (project_of w r p)); [done|].
  by rewrite Hf.
Qed.

Lemma app_inv_self_app {A} (l : list A) (x : A) : l ≠ (l ++ [x])%list.
Proof.
  intros E. apply (f_equal length) in E. rewrite length_app in E. simpl in E. lia.
Qed.

Lemma creates_project_inv w r p q :
  route r = POST_makeproj → Authenticated w r p → creates_project r w q →
  q = project_of w r p.
Proof.
  intros Hr Ha (res & w' & Happ & Hq).
  rewrite (makeproj_authenticated _ _ _ Hr Ha) in Happ.
  destruct (Project_check (projects w) (project_of w r p)).
  - injection Happ as _ <-. simpl in Hq. by apply app_inv_self_app in Hq.
  - injection Happ as _ <-. simpl in Hq.
    apply app_inv_head in Hq. by injection Hq.
Qed.

(** C2: the project record an authenticated POST /makeproj creates has as
    [createdBy] the identity of the principal the session gate resolved,
    whatever the body holds (a [createdBy] or user id supplied by the
    client is not read); so two requests, even with identical bodies, made
    under sessions of different principals create records with different
    owners. *)
Theorem makeproj_owner_is_session_principal w r1 r2 p1 p2 q1 q2 :
  route r1 = POST_makeproj → route r2 = POST_makeproj →
  body r1 = body r2 →
  Authenticated w r1 p1 → Authenticated w r2 p2 →
  creates_project r1 w q1 → creates_project r2 w q2 →
  Project.createdBy q1 = VId (Principal._id p1)
  ∧ Project.createdBy q2 = VId (Principal._id p2)
  ∧ (Principal._id p1 ≠ Principal._id p2 →
     Project.createdBy q1 ≠ Project.createdBy q2).
Proof.
  intros Hr1 Hr2 _ Ha1 Ha2 Hc1 Hc2.
  rewrite (creates_project_inv _ _ _ _ Hr1 Ha1 Hc1).
  rewrite (creates_project_inv _ _ _ _ Hr2 Ha2 Hc2).
  simpl. repeat split. congruence.
Qed.

(** ** Profile submission *)

Lemma app_no_fault w r :
  fault w = None →
  ∃ u, app r w = try_catch (router (mkReq r u None None)) default_error_handler w.
Proof.
  intros Hf.
  destruct (session_gate r w) as [[u|e] w'] eqn:E.
  - exists u. unfold app, try_catch. rewrite (bind_ok _ _ _ _ _ E).
    pose proof (session_gate_world r w) as Hw. rewrite E in Hw. simpl in Hw.
    by subst w'.
  - exfalso. revert E.
    unfold session_gate, mbind, M_bind, get_world, mret, M_ret,
      User_deserializeUser, store.
    destruct (cookie r) as [sid|]; [|done].
    destruct (sessions w !! sid); [|done]. by rewrite Hf.
Qed.

(** What the handler of POST /userpage does while the store answers; the
    request object enters only through its body. *)
Lemma userpage_post_run (req : Req) w :
  fault w = None →
  userpage_post req w =
    let b := body (request req) in
    match profile_for w b with
    | Some d =>
        match userdetail_check (userdetails w) (updated_profile d b) with
        | Some e => (Ok (profile_error e), w)
        | None =>
            (Ok (profile_saved (updated_profile d b)),
             set_userdetails (replace_detail (updated_profile d b)) w)
        end
    | None =>
        match userdetail_check (userdetails w) (new_profile (next_oid w) b) with
        | Some e => (Ok (profile_error e), set_next_oid S w)
        | None =>
            (Ok (profile_saved (new_profile (next_oid w) b)),
             set_userdetails (λ ds, (ds ++ [new_profile (next_oid w) b])%list)
               (set_next_oid S w))
        end
    end.
Proof.
  intros Hf.
  unfold userpage_post, try_catch, userdetail_findOne_email, userdetail_save,
    new_oid, store, mbind, M_bind, mret, M_ret; simpl.
  rewrite Hf. fold (profile_for w (body (request req))).
  destruct (profile_for w (body (request req))) as [d|]; simpl.
  - fold (updated_profile d (body (request req))).
    destruct (userdetail_check _ _); [done|]. by rewrite Hf.
  - fold (new_profile (next_oid w) (body (request req))).
    destruct (userdetail_check _ _); [done|]. by rewrite Hf.
Qed.

Lemma app_userpage_post w r :
  route r = POST_userpage → fault w = None →
  app r w = userpage_post (mkReq r None None None) w.
Proof.
  intros Hr Hf. destruct (app_no_fault w r Hf) as [u ->].
  unfold router; simpl; rewrite Hr.
  unfold try_catch. rewrite !userpage_post_run by done. simpl.
  destruct (profile_for w (body r)); by destruct (userdetail_check _ _).
Qed.

Lemma profile_for_In w b d : profile_for w b = Some d → In d (userdetails w).
Proof. intros E. by apply find_some in E as [? _]. Qed.

Lemma replace_detail_In d d' ds :
  In d ds → userdetail._id d' = userdetail._id d → In d' (replace_detail d' ds).
Proof.
  intros Hin Hid. unfold replace_detail. apply in_map_iff.
  exists d. split; [|done]. by rewrite Hid, Nat.eqb_refl.
Qed.

Lemma replace_detail_other d' ds x :
  In x ds → userdetail._id x ≠ userdetail._id d' → In x (replace_detail d' ds).
Proof.
  intros Hin Hid. unfold replace_detail. apply in_map_iff.
  exists x. split; [|done].
  destruct (Nat.eqb_spec (userdetail._id x) (userdetail._id d')); [done|done].
Qed.

(** C3: POST /userpage is not guarded.  While the store answers, its
    outcome is the same for every request with the same body, whether the
    request carries a live session, a stale cookie or none; the record is
    chosen by the [email] of the body alone: if a profile with that email
    is stored and the save goes through, that profile is overwritten with
    the submitted fields, and if none is stored a new profile is created.
    So a caller without a session overwrites the profile of another user
    by naming that user's email. *)
Theorem userpage_post_accepts_unauthenticated_writes w r :
  route r = POST_userpage → fault w = None →
  (∀ r', route r' = POST_userpage → body r' = body r → app r' w = app r w)
  ∧ (∀ d, profile_for w (body r) = Some d →
       userdetail_check (userdetails w) (updated_profile d (body r)) = None →
       app r w = (Ok (profile_saved (updated_profile d (body r))),
                  set_userdetails (replace_detail (updated_profile d (body r))) w)
       ∧ In (updated_profile d (body r))
            (replace_detail (updated_profile d (body r)) (userdetails w)))
  ∧ (profile_for w (body r) = None →
     userdetail_check (userdetails w) (new_profile (next_oid w) (body r)) = None →
     app r w = (Ok (profile_saved (new_profile (next_oid w) (body r))),
                set_userdetails
                  (λ ds, (ds ++ [new_profile (next_oid w) (body r)])%list)
                  (set_next_oid S w))).
Proof.
  intros Hr Hf. split; [|split].
  - intros r' Hr' Hb. rewrite !app_userpage_post by done.
    rewrite !userpage_post_run by done. simpl. by rewrite Hb.
  - intros d Hd Hc. split.
    + rewrite app_userpage_post, userpage_post_run by done. simpl.
      by rewrite Hd, Hc.
    + apply replace_detail_In with (d := d); [by eapply profile_for_In | done].
  - intros Hnone Hc. rewrite app_userpage_post, userpage_post_run by done. simpl.
    by rewrite Hnone, Hc.
Qed.

(** C10: when POST /userpage finds a stored profile with the submitted
    email and the update is saved (status 200), the stored profile keeps
    its [_id] and its [email]; [phone], [instagram], [twitter],
    [linkedIn], [github], [fullName], [campus], [skills] and [projects]
    are the values of the body, and the profiles with another [_id] are
    still stored. *)
Theorem userpage_post_update_keeps_email w r d res w' :
  route r = POST_userpage → fault w = None →
  profile_for w (body r) = Some d →
  app r w = (Ok res, w') → status res = 200 →
  ∃ d',
    userdetails w' = replace_detail d' (userdetails w)
    ∧ In d' (userdetails w')
    ∧ userdetail._id d' = userdetail._id d
    ∧ userdetail.email d' = userdetail.email d
    ∧ userdetail.phone d' = field (body r) "phone"
    ∧ userdetail.instagram d' = field (body r) "instagram"
    ∧ userdetail.twitter d' = field (body r) "twitter"
    ∧ userdetail.linkedIn d' = field (body r) "linkedIn"
    ∧ userdetail.github d' = field (body r) "github"
    ∧ userdetail.fullName d' = field (body r) "fullName"
    ∧ userdetail.campus d' = field (body r) "campus"
    ∧ userdetail.skills d' = field (body r) "skills"
    ∧ userdetail.projects d' = field (body r) "projects"
    ∧ (∀ x, In x (userdetails w) → userdetail._id x ≠ userdetail._id d →
         In x (userdetails w')).
Proof.
  intros Hr Hf Hd Happ Hs.
  rewrite app_userpage_post, userpage_post_run in Happ by done.
  simpl in Happ. rewrite Hd in Happ.
  destruct (userdetail_check _ _) as [e|].
  { injection Happ as <- _. discriminate Hs. }
  injection Happ as _ <-.
  exists (updated_profile d (body r)). simpl.
  split; [done|]. split.
  { apply replace_detail_In with (d := d); [by eapply profile_for_In | done]. }
  repeat (split; [done|]).
  intros x Hx Hne. by apply replace_detail_other.
Qed.

(** ** Reading the own profile *)

(** C9: an authenticated GET /userpage whose principal has no stored
    profile (no userdetail document with the principal's email) is
    answered with status 200 and the empty JSON object, and changes
    nothing. *)
Theorem userpage_get_without_profile w r p :
  route r = GET_userpage → Authenticated w r p →
  profile_of w p = None →
  app r w = (Ok (res_json (VObj [])), w)
  ∧ status (res_json (VObj [])) = 200
  ∧ rbody (res_json (VObj [])) = BJson (VObj []).
Proof.
  intros Hr Ha Hp. split; [|done].
  pose proof (Authenticated_no_fault _ _ _ Ha) as Hf.
  rewrite app_authenticated with (p := p) by done.
  unfold router; simpl; rewrite Hr.
  unfold try_catch, userpage_get, guarded, isLoggedIn, getUserDetails, try_catch,
    userdetail_findOne_email, store, mbind, M_bind, mret, M_ret; simpl.
  rewrite Hf. fold (profile_of w p). by rewrite Hp.
Qed.

(** With a stored profile the answer is that profile. *)
Lemma userpage_get_with_profile w r p d :
  route r = GET_userpage → Authenticated w r p →
  profile_of w p = Some d →
  app r w = (Ok (res_json (userdetail_json d)), w).
Proof.
  intros Hr Ha Hp.
  pose proof (Authenticated_no_fault _ _ _ Ha) as Hf.
  rewrite app_authenticated with (p := p) by done.
  unfold router; simpl; rewrite Hr.
  unfold try_catch, userpage_get, guarded, isLoggedIn, getUserDetails, try_catch,
    userdetail_findOne_email, store, mbind, M_bind, mret, M_ret; simpl.
  rewrite Hf. fold (profile_of w p). by rewrite Hp.
Qed.

(** ** Login *)

(** What passport answers to a failed attempt. *)
Lemma passport_fail_run (req : Req) message res w :
  new_session req = None → set_cookie res = None →
  passport_fail req message res w
  = (Ok (inl (mkResponse (status res) (rbody res)
                (refusal_cookie w (request req) message))),
     flashed w (request req) message).
Proof.
  destruct req as [r u ud ns], res as [code b c]. simpl. intros -> ->.
  unfold passport_fail, req_flash, session_set_cookie, refusal_cookie, flashed,
    login_cookie, modify, get_world, mbind, M_bind, mret, M_ret. simpl.
  destruct message as [msg|]; [|done]. simpl.
  destruct (request_session w r); simpl; [done|].
  by destruct (is_production (env w) && negb (secure r)).
Qed.

(** What [passport.authenticate] and the handler of /login do while the
    store answers. *)
Lemma login_run (req : Req) w :
  fault w = None → new_session req = None →
  login req w =
    if credentials_present (request req) then
      match user_named w (lookup_credential (request req) "username") with
      | Some u =>
          if password_matches u (lookup_credential (request req) "password")
          then (Ok (mkResponse 200 (rbody welcome) (login_cookie w (request req))),
                logged_in w (request req) u)
          else (Ok (mkResponse 401 (BText "Unauthorized")
                      (refusal_cookie w (request req) AuthFailure_message)),
                flashed w (request req) AuthFailure_message)
      | None =>
          (Ok (mkResponse 401 (BText "Unauthorized")
                 (refusal_cookie w (request req) AuthFailure_message)),
           flashed w (request req) AuthFailure_message)
      end
    else (Ok (mkResponse 400 (BText "Bad Request")
                (refusal_cookie w (request req) (Some "Missing credentials"))),
          flashed w (request req) (Some "Missing credentials")).
Proof.
  intros Hf Hn.
  unfold login, guarded, passport_authenticate_local, credentials_present.
  destruct (truthy (lookup_credential (request req) "username")); simpl.
  2:{ unfold mbind, M_bind. by rewrite passport_fail_run. }
  destruct (truthy (lookup_credential (request req) "password")); simpl.
  2:{ unfold mbind, M_bind. by rewrite passport_fail_run. }
  unfold User_verify, store, mbind, M_bind at 1 2. rewrite Hf.
  fold (user_named w (lookup_credential (request req) "username")).
  destruct (user_named w _) as [u|].
  2:{ unfold mbind, M_bind. by rewrite passport_fail_run. }
  fold (password_matches u (lookup_credential (request req) "password")).
  destruct (password_matches u _).
  2:{ unfold mbind, M_bind. by rewrite passport_fail_run. }
  unfold logIn, session_set_cookie, logged_in, login_cookie, modify, get_world,
    mbind, M_bind, mret, M_ret. simpl.
  destruct (cookie (request req)); simpl;
    by destruct (is_production (env w) && negb (secure (request req))).
Qed.


Lemma login_run_fault (req : Req) w e :
  fault w = Some e → new_session req = None →
  login req w =
    if credentials_present (request req) then (Throw e, w)
    else (Ok (mkResponse 400 (BText "Bad Request")
                (refusal_cookie w (request req) (Some "Missing credentials"))),
          flashed w (request req) (Some "Missing credentials")).
Proof.
  intros Hf Hn.
  unfold login, guarded, passport_authenticate_local, credentials_present.
  destruct (truthy (lookup_credential (request req) "username")); simpl.
  2:{ unfold mbind, M_bind. by rewrite passport_fail_run. }
  destruct (truthy (lookup_credential (request req) "password")); simpl.
  2:{ unfold mbind, M_bind. by rewrite passport_fail_run. }
  unfold User_verify, store, mbind, M_bind. by rewrite Hf.
Qed.

Lemma router_login (req : Req) w :
  route (request req) = POST_login ∨ route (request req) = POST_clublogin →
  router req w = login req w.
Proof. unfold router. by intros [-> | ->]. Qed.

Lemma refusal_cookie_cases w r message :
  refusal_cookie w r message = None ∨ refusal_cookie w r message = login_cookie w r.
Proof.
  unfold refusal_cookie. destruct message; [|by left].
  destruct (request_session w r); auto.
Qed.

Lemma login_cookie_cases w r :
  login_cookie w r = None
  ∨ login_cookie w r
    = Some (gen_sid (sessions w), cookie_options (sessionOptions (env w))).
Proof. unfold login_cookie. destruct (_ && _); auto. Qed.

(** The answers of the login handler. *)
Lemma login_cases (req : Req) w res w' :
  new_session req = None → login req w = (Ok res, w') →
  res = mkResponse 200 (rbody welcome) (login_cookie w (request req))
  ∨ ∃ c, (c = None ∨ c = login_cookie w (request req))
         ∧ (res = mkResponse 401 (BText "Unauthorized") c
            ∨ res = mkResponse 400 (BText "Bad Request") c).
Proof.
  intros Hn Hl.
  assert (H400 : ∀ m, res = mkResponse 400 (BText "Bad Request")
                              (refusal_cookie w (request req) m) →
            ∃ c, (c = None ∨ c = login_cookie w (request req))
                 ∧ (res = mkResponse 401 (BText "Unauthorized") c
                    ∨ res = mkResponse 400 (BText "Bad Request") c)).
  { intros m ->. exists (refusal_cookie w (request req) m).
    split; [apply refusal_cookie_cases | by right]. }
  assert (H401 : ∀ m, res = mkResponse 401 (BText "Unauthorized")
                              (refusal_cookie w (request req) m) →
            ∃ c, (c = None ∨ c = login_cookie w (request req))
                 ∧ (res = mkResponse 401 (BText "Unauthorized") c
                    ∨ res = mkResponse 400 (BText "Bad Request") c)).
  { intros m ->. exists (refusal_cookie w (request req) m).
    split; [apply refusal_cookie_cases | by left]. }
  destruct (fault w) as [e|] eqn:Hf.
  - rewrite (login_run_fault _ w e) in Hl by done.
    destruct (credentials_present _); [done|].
    injection Hl as Hres _. right.
    apply (H400 (Some "Missing credentials")). symmetry. exact Hres.
  - rewrite login_run in Hl by done.
    destruct (credentials_present _).
    2:{ injection Hl as Hres _. right.
        apply (H400 (Some "Missing credentials")). symmetry. exact Hres. }
    destruct (user_named w _) as [u|].
    2:{ injection Hl as Hres _. right.
        apply (H401 AuthFailure_message). symmetry. exact Hres. }
    destruct (password_matches u _); injection Hl as Hres _; [by left|].
    right. apply (H401 AuthFailure_message). symmetry. exact Hres.
Qed.

Lemma flashed_sessions w r message : sessions (flashed w r message) = sessions w.
Proof.
  unfold flashed. destruct message; [|done]. by destruct (request_session w r).
Qed.

Lemma flashed_documents w r message : same_documents w (flashed w r message).
Proof.
  unfold flashed, same_documents.
  destruct message; [|done]. by destruct (request_session w r).
Qed.




(** ** Signup *)

Lemma app_run w r :
  app r w =
    match (session_gate r w).1 with
    | Ok u => try_catch (router (mkReq r u None None)) default_error_handler w
    | Throw e => default_error_handler e w
    end.
Proof.
  pose proof (session_gate_world r w) as Hw.
  destruct (session_gate r w) as [[u|e] w'] eqn:E; simpl in *; subst w'.
  - unfold app, try_catch. by rewrite (bind_ok _ _ _ _ _ E).
  - unfold app, try_catch. by rewrite (bind_throw _ _ _ _ _ E).
Qed.

Lemma session_gate_throw r w e :
  (session_gate r w).1 = Throw e → fault w = Some e.
Proof.
  unfold session_gate, mbind, M_bind, get_world, mret, M_ret,
    User_deserializeUser, store.
  destruct (cookie r) as [sid|]; [|done].
  destruct (sessions w !! sid); [|done].
  destruct (fault w); simpl; congruence.
Qed.

Lemma signup_run (req : Req) w :
  signup req w =
    let b := body (request req) in
    if truthy (field b "campus1") then
      match User_register (signup_candidate (next_oid w) b) (field b "password")
              (set_next_oid S w) with
      | (Ok _, w2) => (Ok signup_success, w2)
      | (Throw _, w2) => (Ok signup_error, w2)
      end
    else (Ok signup_error, w).
Proof.
  unfold signup, try_catch, new_oid, mbind, M_bind, mret, M_ret, throw; simpl.
  destruct (truthy (field (body (request req)) "campus1")); [|done]. simpl.
  fold (signup_candidate (next_oid w) (body (request req))).
  by destruct (User_register _ _ _) as [[?|?] ?].
Qed.

Lemma signup_never_throws (req : Req) w : ∃ res w', signup req w = (Ok res, w').
Proof.
  rewrite signup_run. simpl.
  destruct (truthy _); [|by eauto].
  destruct (User_register _ _ _) as [[?|?] ?]; eauto.
Qed.

(** A signup request either dies in the session gate, when the store is
    at fault, or reaches the handler. *)
Lemma app_signup w r :
  route r = POST_signup →
  (∃ e, fault w = Some e ∧ app r w = default_error_handler e w)
  ∨ app r w = signup (mkReq r None None None) w.
Proof.
  intros Hr. rewrite app_run.
  destruct (session_gate r w).1 as [u|e] eqn:E.
  - right. unfold router; simpl; rewrite Hr. unfold try_catch.
    destruct (signup_never_throws (mkReq r u None None) w) as (res & w' & E').
    rewrite E'. by rewrite signup_run in *.
  - left. exists e. split; [by apply session_gate_throw in E | done].
Qed.

Lemma existsb_same_identity id b w :
  existsb (same_identity (signup_candidate id b)) (users w) = true
  ↔ identity_taken w b.
Proof.
  rewrite existsb_exists. unfold identity_taken, same_identity. simpl.
  split; intros (u & Hin & Hu); exists u; (split; [done|]).
  - apply orb_true_iff in Hu as [E|E]; apply value_eqb_eq in E; auto.
  - apply orb_true_iff. destruct Hu as [<-|<-]; rewrite value_eqb_refl; auto.
Qed.

Lemma User_register_duplicate id b pw w :
  fault w = None → identity_taken w b →
  User_register (signup_candidate id b) pw w = (Throw DuplicateIdentity, w).
Proof.
  intros Hf Ht. unfold User_register, store. rewrite Hf.
  apply existsb_same_identity with (id := id) in Ht. by rewrite Ht.
Qed.

Lemma User_register_fresh id b pw w :
  fault w = None → ¬ identity_taken w b →
  User_register (signup_candidate id b) pw w =
    let s := random_salt w in
    let u := with_secret (signup_candidate id b) (kdf s pw) s in
    (Ok (strip u), set_users (λ us, (us ++ [u])%list) w).
Proof.
  intros Hf Ht. unfold User_register, store. rewrite Hf.
  destruct (existsb _ _) eqn:E; [|done].
  by apply existsb_same_identity in E.
Qed.

Lemma User_register_users c pw w o w' :
  User_register c pw w = (o, w') →
  match o with
  | Ok _ => True
  | Throw _ => users w' = users w
  end.
Proof.
  unfold User_register, store.
  destruct (fault w); [by intros [= <- <-]|].
  destruct (existsb _ _); by intros [= <- <-].
Qed.

Lemma signup_taken_refused w r :
  route r = POST_signup → identity_taken w (body r) →
  ∃ res w', app r w = (Ok res, w') ∧ refused w res w'.
Proof.
  intros Hr Ht. destruct (app_signup w r Hr) as [(e & Hf & ->) | ->].
  - eexists _, _. split; [reflexivity|]. split; [done|]. split; [done|].
    congruence.
  - rewrite signup_run. simpl.
    destruct (truthy _); [|by eexists _, _].
    destruct (fault w) as [e|] eqn:Hf.
    + unfold User_register, store. simpl. rewrite Hf.
      eexists _, _. split; [reflexivity|]. by split.
    + rewrite User_register_duplicate by done.
      eexists _, _. split; [reflexivity|]. by split.
Qed.

(** C5: a signup whose username or email is that of a registered user is
    refused: [User.register] rejects the candidate with the
    duplicate-identity error, the endpoint answers with the failure
    status 500 (the generic error while the store answers), and the users
    stay as they were, so the first record is not overwritten and no
    second one is added.  A signup with a campus and with a username and
    an email nobody has succeeds and adds exactly one user with that
    identity; the same signup sent again is refused and adds nothing. *)
Theorem signup_duplicate_identity w r :
  route r = POST_signup →
  (identity_taken w (body r) →
     (∀ id, fault w = None →
        User_register (signup_candidate id (body r)) (field (body r) "password") w
        = (Throw DuplicateIdentity, w))
     ∧ ∃ res w', app r w = (Ok res, w') ∧ refused w res w')
  ∧ (¬ identity_taken w (body r) → fault w = None →
     truthy (field (body r) "campus1") = true →
     ∃ u w1 w2,
       app r w = (Ok signup_success, w1)
       ∧ users w1 = (users w ++ [u])%list
       ∧ User.username u = field (body r) "username"
       ∧ User.email u = field (body r) "email"
       ∧ app r w1 = (Ok signup_error, w2)
       ∧ users w2 = users w1).
Proof.
  intros Hr. split.
  - intros Ht. split.
    + intros id Hf. by apply User_register_duplicate.
    + by apply signup_taken_refused.
  - intros Hfresh Hf Hc.
    destruct (app_signup w r Hr) as [(e & Hf' & _) | Happ]; [congruence|].
    rewrite signup_run in Happ. simpl in Happ. rewrite Hc in Happ.
    rewrite User_register_fresh in Happ by done. simpl in Happ.
    set (u := with_secret _ _ _) in Happ.
    set (w1 := set_users _ _) in Happ.
    assert (Ht1 : identity_taken w1 (body r)).
    { exists u. split; [|by left]. subst w1. simpl. apply in_or_app. right. by left. }
    destruct (signup_taken_refused w1 r Hr Ht1) as (res & w2 & Happ2 & _ & Hu & Hres).
    exists u, w1, w2. rewrite Happ, Happ2, (Hres Hf). by repeat split.
Qed.

(** C6, as the code has it: the handler reads the campus under the key
    [campus1] and requires it to be truthy.  Without a truthy [campus1]
    the signup is refused (status 500, the generic error while the store
    answers) and the state is unchanged; every signup that is not
    answered with the success response is refused in this same way and
    adds no user; with a truthy [campus1], a signup [User.register]
    accepts is answered with [{status: "success", message: "Signup
    successful"}] and leaves the state [User.register] made. *)
Theorem signup_requires_campus1 w r :
  route r = POST_signup →
  (truthy (field (body r) "campus1") = false →
     ∃ res, app r w = (Ok res, w) ∧ refused w res w)
  ∧ (∃ res w', app r w = (Ok res, w')
       ∧ (res = signup_success ∨ refused w res w'))
  ∧ (∀ p w2, truthy (field (body r) "campus1") = true →
       User_register (signup_candidate (next_oid w) (body r))
         (field (body r) "password") (set_next_oid S w) = (Ok p, w2) →
       app r w = (Ok signup_success, w2)
       ∧ rbody signup_success
         = BJson (VObj [("status", VStr "success");
                        ("message", VStr "Signup successful")])).
Proof.
  intros Hr. split; [|split].
  - intros Hc. destruct (app_signup w r Hr) as [(e & Hf & ->) | ->].
    + eexists. split; [reflexivity|]. split; [done|]. split; [done|]. congruence.
    + rewrite signup_run. simpl. rewrite Hc. by eexists.
  - destruct (app_signup w r Hr) as [(e & Hf & ->) | ->].
    + eexists _, _. split; [reflexivity|]. right.
      split; [done|]. split; [done|]. congruence.
    + rewrite signup_run. simpl.
      destruct (truthy _); [|eexists _, _; split; [reflexivity|]; by right].
      destruct (User_register _ _ _) as [[p|e] w2] eqn:E;
        (eexists _, _; split; [reflexivity|]); [by left|].
      right. apply User_register_users in E. by split.
  - intros p w2 Hc Hreg. split; [|done].
    destruct (app_signup w r Hr) as [(e & Hf & _) | ->].
    + exfalso. revert Hreg. unfold User_register, store. simpl.
      by rewrite Hf.
    + rewrite signup_run. simpl. by rewrite Hc, Hreg.
Qed.

(** ** Every route at once *)

Ltac unfold_handlers :=
  unfold router, health, signup, login, clublogin, listings, clubpost,
    userpage_get, people, userdetails_fullName, makeproj, makeproj_handler,
    clublisting, userpage_post, catch_all, guarded, isLoggedIn, getUserDetails,
    upload_single, passport_authenticate_local, passport_fail, req_flash, logIn,
    session_set_cookie,
    req_user_id, Project_find, Club_find, userdetail_find,
    userdetail_findOne_email, userdetail_findOne_fullName, Project_save,
    Club_save, userdetail_save, User_register, User_verify,
    default_error_handler, try_catch, store, new_oid, modify, get_world,
    throw, mbind, M_bind, mret, M_ret in *.

Ltac run_handlers :=
  unfold_handlers; simpl in *; repeat (case_match; simpl in *; simplify_eq); simpl in *.

(** The only cookie a response ever sets is the one of a session created
    by a login. *)
Lemma router_cookie (req : Req) w res w' :
  new_session req = None →
  router req w = (Ok res, w') →
  set_cookie res = None
  ∨ set_cookie res = Some (gen_sid (sessions w), cookie_options (sessionOptions (env w))).
Proof.
  intros Hn Hrun. destruct req as [r u ud ns]. simpl in Hn. subst ns.
  assert (Hlogin : route r = POST_login ∨ route r = POST_clublogin →
            set_cookie res = None
            ∨ set_cookie res
              = Some (gen_sid (sessions w), cookie_options (sessionOptions (env w)))).
  { intros Hr. rewrite router_login in Hrun by done.
    apply login_cases in Hrun; [|done]. simpl in Hrun.
    destruct (login_cookie_cases w r) as [E|E];
      destruct Hrun as [-> | (c & [-> | ->] & [-> | ->])]; simpl; rewrite ?E; auto. }
  destruct (route r) eqn:Hr; try (apply Hlogin; auto; fail); clear Hlogin;
    run_handlers; auto.
Qed.

Lemma app_cookie w r res w' :
  app r w = (Ok res, w') →
  set_cookie res = None
  ∨ set_cookie res = Some (gen_sid (sessions w), cookie_options (sessionOptions (env w))).
Proof.
  rewrite app_run. destruct (session_gate r w).1 as [u|e].
  - unfold try_catch.
    destruct (router _ w) as [[res0|e] w0] eqn:E.
    + intros [= <- <-]. by eapply router_cookie in E.
    + unfold default_error_handler, mbind, M_bind, get_world, mret, M_ret.
      intros [= <- <-]. by left.
  - unfold default_error_handler, mbind, M_bind, get_world, mret, M_ret.
    intros [= <- <-]. by left.
Qed.

(** C8, as the code has it: every session cookie a response sets is
    HTTP-only and [SameSite=lax], and it is marked secure exactly when
    [NODE_ENV] is ["production"]; the transport the request came over
    does not enter. *)
Theorem session_cookie_attributes w r res w' sid c :
  app r w = (Ok res, w') → set_cookie res = Some (sid, c) →
  Cookie.httpOnly c = true
  ∧ Cookie.sameSite c = "lax"
  ∧ (Cookie.secure c = true ↔ env w !! "NODE_ENV" = Some "production").
Proof.
  intros Happ Hc. apply app_cookie in Happ as [E|E]; rewrite E in Hc; [done|].
  injection Hc as _ <-. simpl. repeat split.
  - unfold is_production. by intros ?%bool_decide_eq_true.
  - unfold is_production. by intros ?; apply bool_decide_eq_true.
Qed.

(** ** Secrets and responses *)

Lemma find_username_public token us :
  strip <$> List.find (λ u, value_eqb (User.username u) token) (map forget_secret us)
  = strip <$> List.find (λ u, value_eqb (User.username u) token) us.
Proof.
  induction us as [|u us IH]; [done|]. simpl.
  destruct (value_eqb (User.username u) token); [done|]. apply IH.
Qed.

Lemma session_gate_public r w :
  (session_gate r (public_of w)).1 = (session_gate r w).1.
Proof.
  unfold session_gate, mbind, M_bind, get_world, mret, M_ret,
    User_deserializeUser, store, public_of, set_users. simpl.
  destruct (cookie r) as [sid|]; [|done].
  destruct (sessions w !! sid); [|done].
  destruct (fault w); [done|]. simpl.
  by rewrite find_username_public.
Qed.

Lemma existsb_same_identity_public c us :
  existsb (same_identity c) (map forget_secret us) = existsb (same_identity c) us.
Proof.
  induction us as [|u us IH]; [done|]. simpl. by rewrite IH.
Qed.

Lemma signup_public (req : Req) w :
  (signup req (public_of w)).1 = (signup req w).1.
Proof.
  rewrite !signup_run. simpl.
  destruct (truthy _); [|done].
  unfold User_register, store, public_of, set_users, set_next_oid. simpl.
  destruct (fault w); [done|].
  rewrite existsb_same_identity_public.
  by destruct (existsb _ _).
Qed.

(** Outside the login routes the response is the same whatever the
    hashes and salts of the users are. *)
Lemma router_public (req : Req) w :
  route (request req) ≠ POST_login → route (request req) ≠ POST_clublogin →
  (try_catch (router req) default_error_handler (public_of w)).1
  = (try_catch (router req) default_error_handler w).1.
Proof.
  intros Hl Hc. destruct req as [r u ud ns]. simpl in Hl, Hc.
  destruct (route r) eqn:Hr; try done.
  2:{ pose proof (signup_public (mkReq r u ud ns) w) as Hs.
      destruct (signup_never_throws (mkReq r u ud ns) w) as (r1 & w1 & E1).
      destruct (signup_never_throws (mkReq r u ud ns) (public_of w)) as (r2 & w2 & E2).
      unfold router, try_catch; simpl. rewrite Hr, E1, E2.
      rewrite E1, E2 in Hs. done. }
  all: unfold public_of, set_users; run_handlers; done.
Qed.

Lemma app_public w r :
  route r ≠ POST_login → route r ≠ POST_clublogin →
  (app r (public_of w)).1 = (app r w).1.
Proof.
  intros Hl Hc. rewrite !app_run, session_gate_public.
  destruct (session_gate r w).1 as [u|e]; [|done].
  by apply router_public.
Qed.

Lemma app_total w r : ∃ res, (app r w).1 = Ok res.
Proof.
  rewrite app_run.
  assert (Hd : ∀ e, ∃ res, (default_error_handler e w).1 = Ok res) by (by eexists).
  destruct (session_gate r w).1 as [u|e]; [|done].
  unfold try_catch. destruct (router _ w) as [[res|e] w0]; [by eexists|].
  by eexists.
Qed.

Lemma app_login_response w r res :
  route r = POST_login ∨ route r = POST_clublogin →
  (app r w).1 = Ok res → login_response w r res.
Proof.
  intros Hr. rewrite app_run. unfold login_response.
  destruct (session_gate r w).1 as [u|e] eqn:E.
  - unfold try_catch. rewrite router_login by done.
    destruct (login (mkReq r u None None) w) as [[res0|e] w0] eqn:Hl.
    + intros [= <-]. apply login_cases in Hl; [|done]. simpl in Hl.
      destruct Hl as [-> | Hl]; [by left | by right; left].
    + destruct (fault w) as [e0|] eqn:Hf.
      * rewrite (login_run_fault _ w e0) in Hl by done. simpl in Hl.
        destruct (credentials_present r); [|done].
        injection Hl as <- <-. intros [= <-]. right. right. by exists e0.
      * rewrite login_run in Hl by done. simpl in Hl.
        destruct (credentials_present r); [|done].
        destruct (user_named w _) as [x|]; [|done].
        by destruct (password_matches x _).
  - apply session_gate_throw in E. intros [= <-]. right. right. by exists e.
Qed.

Lemma app_signup_response w r res :
  route r = POST_signup → (app r w).1 = Ok res → signup_response w res.
Proof.
  intros Hr. unfold signup_response.
  destruct (app_signup w r Hr) as [(e & Hf & ->) | ->].
  - intros [= <-]. right. right. by exists e.
  - rewrite signup_run. simpl. destruct (truthy _).
    + destruct (User_register _ _ _) as [[?|?] ?]; intros [= <-]; auto.
    + intros [= <-]. auto.
Qed.

Lemma app_people w r :
  route r = GET_people → fault w = None →
  (app r w).1 = Ok (res_json (VArr (map people_json (userdetails w)))).
Proof.
  intros Hr Hf. destruct (app_no_fault w r Hf) as [u ->].
  unfold router; simpl; rewrite Hr.
  unfold people, try_catch, userdetail_find, store, mbind, M_bind, mret, M_ret.
  by rewrite Hf.
Qed.

(** C7: no response carries secret material of a principal.  Every
    request is answered, and: outside the login routes the response is
    the same in any two states that differ only in the hashes and salts
    of the users; the responses of the login routes are the welcome with
    the session cookie, one of the two fixed failure texts, or the error
    page; those of signup are the fixed success or error object (a status
    and a message) or the error page; and /people lists, of every
    profile, [fullName] and [skills] only. *)
Theorem no_secret_in_responses w w' r :
  public_of w = public_of w' →
  (∃ res, (app r w).1 = Ok res)
  ∧ (route r ≠ POST_login → route r ≠ POST_clublogin →
     (app r w).1 = (app r w').1)
  ∧ (route r = POST_login ∨ route r = POST_clublogin →
     ∀ res, (app r w).1 = Ok res → login_response w r res)
  ∧ (route r = POST_signup →
     ∀ res, (app r w).1 = Ok res → signup_response w res)
  ∧ (route r = GET_people → fault w = None →
     (app r w).1 = Ok (res_json (VArr (map people_json (userdetails w))))
     ∧ ∀ d, people_json d
            = json_obj [("fullName", userdetail.fullName d);
                        ("skills", userdetail.skills d)]).
Proof.
  intros Hp. split; [apply app_total|]. split; [|split; [|split]].
  - intros Hl Hc. rewrite <- (app_public w), <- (app_public w') by done.
    by rewrite Hp.
  - intros Hr res. by apply app_login_response.
  - intros Hr res. by apply app_signup_response.
  - intros Hr Hf. split; [by apply app_people | done].
Qed.

(** ** What a request can change *)

(** The effect of one request on the state, route by route. *)
Lemma router_effect (req : Req) w :
  let b := body (request req) in
  let w' := (try_catch (router req) default_error_handler w).2 in
  match route (request req) with
  | POST_signup =>
      w' = w ∨ w' = set_next_oid S w
      ∨ ∃ u, w' = set_users (λ us, (us ++ [u])%list) (set_next_oid S w)
  | POST_makeproj =>
      w' = w ∨ w' = set_next_oid S w
      ∨ ∃ q, w' = set_projects (λ ps, (ps ++ [q])%list) (set_next_oid S w)
  | POST_clublisting =>
      w' = w ∨ w' = set_next_oid S w
      ∨ ∃ c, w' = set_clubs (λ cs, (cs ++ [c])%list) (set_next_oid S w)
  | POST_userpage =>
      w' = w ∨ w' = set_next_oid S w
      ∨ (∃ d0, profile_for w b = Some d0
               ∧ w' = set_userdetails (replace_detail (updated_profile d0 b)) w)
      ∨ (profile_for w b = None
         ∧ w' = set_userdetails (λ ds, (ds ++ [new_profile (next_oid w) b])%list)
                  (set_next_oid S w))
  | POST_login | POST_clublogin =>
      ∃ ss fs, w' = set_flashes (λ _, fs) (set_sessions (λ _, ss) w)
  | _ => w' = w
  end.
Proof.
  destruct req as [r u ud ns], w as [us ps cs ds ss fs n ev ft]. simpl.
  destruct (route r) eqn:Hr.
  all: try (unfold profile_for, updated_profile, new_profile).
  all: run_handlers; eauto 10.
  all: unfold set_sessions, set_flashes, destroy_session; simpl;
    eexists _, _; reflexivity.
Qed.

Lemma app_effect w r :
  let w' := (app r w).2 in
  match route r with
  | POST_signup =>
      w' = w ∨ w' = set_next_oid S w
      ∨ ∃ u, w' = set_users (λ us, (us ++ [u])%list) (set_next_oid S w)
  | POST_makeproj =>
      w' = w ∨ w' = set_next_oid S w
      ∨ ∃ q, w' = set_projects (λ ps, (ps ++ [q])%list) (set_next_oid S w)
  | POST_clublisting =>
      w' = w ∨ w' = set_next_oid S w
      ∨ ∃ c, w' = set_clubs (λ cs, (cs ++ [c])%list) (set_next_oid S w)
  | POST_userpage =>
      w' = w ∨ w' = set_next_oid S w
      ∨ (∃ d0, profile_for w (body r) = Some d0
               ∧ w' = set_userdetails (replace_detail (updated_profile d0 (body r))) w)
      ∨ (profile_for w (body r) = None
         ∧ w' = set_userdetails
                  (λ ds, (ds ++ [new_profile (next_oid w) (body r)])%list)
                  (set_next_oid S w))
  | POST_login | POST_clublogin =>
      ∃ ss fs, w' = set_flashes (λ _, fs) (set_sessions (λ _, ss) w)
  | _ => w' = w
  end.
Proof.
  simpl. rewrite app_run.
  destruct (session_gate r w).1 as [u|e].
  - exact (router_effect (mkReq r u None None) w).
  - destruct (route r); simpl; auto; destruct w;
      unfold set_sessions, set_flashes; simpl; eexists _, _; reflexivity.
Qed.

(** X1: the reading routes, and a request no route matches, leave the
    whole state as it was, whoever asks and whatever the store's
    condition. *)
Theorem reading_routes_change_nothing w r :
  reads_only (route r) = true → (app r w).2 = w.
Proof.
  intros Hr. pose proof (app_effect w r) as He. simpl in He.
  by destruct (route r).
Qed.

(** X2: every collection has one writer: only POST /signup changes the
    users, only POST /makeproj the projects, only POST /clublisting the
    clubs, only POST /userpage the profiles, only the login routes the
    sessions; no request changes the environment or the condition of the
    store. *)
Theorem each_collection_has_one_writer w r :
  (route r ≠ POST_signup → users (app r w).2 = users w)
  ∧ (route r ≠ POST_makeproj → projects (app r w).2 = projects w)
  ∧ (route r ≠ POST_clublisting → clubs (app r w).2 = clubs w)
  ∧ (route r ≠ POST_userpage → userdetails (app r w).2 = userdetails w)
  ∧ (route r ≠ POST_login → route r ≠ POST_clublogin →
     sessions (app r w).2 = sessions w)
  ∧ env (app r w).2 = env w
  ∧ fault (app r w).2 = fault w.
Proof.
  pose proof (app_effect w r) as He. simpl in He.
  destruct (route r);
    repeat match goal with
           | H : _ ∨ _ |- _ => destruct H
           | H : ∃ _, _ |- _ => destruct H
           | H : _ ∧ _ |- _ => destruct H
           end;
    match goal with H : (app r w).2 = _ |- _ => rewrite H end;
    by repeat split.
Qed.



(** ** The store at fault *)

Lemma router_fault (req : Req) w e :
  fault w = Some e → uses_store (route (request req)) = true →
  new_session req = None →
  ∃ res w', try_catch (router req) default_error_handler w = (Ok res, w')
            ∧ (400 ≤ status res)%nat ∧ same_documents w w'
            ∧ sessions w' = sessions w
            ∧ (route (request req) ≠ POST_login →
               route (request req) ≠ POST_clublogin → flashes w' = flashes w).
Proof.
  intros Hf Hr Hn.
  assert (Hlogin : route (request req) = POST_login
                   ∨ route (request req) = POST_clublogin →
            ∃ res w', try_catch (router req) default_error_handler w = (Ok res, w')
                      ∧ (400 ≤ status res)%nat ∧ same_documents w w'
                      ∧ sessions w' = sessions w
                      ∧ (route (request req) ≠ POST_login →
                         route (request req) ≠ POST_clublogin →
                         flashes w' = flashes w)).
  { intros Hl. unfold try_catch.
    rewrite router_login, (login_run_fault _ w e) by done.
    destruct (credentials_present _).
    - eexists _, _. split; [reflexivity|]. simpl. split; [lia|].
      split; [done|]. split; [done|]. by destruct Hl as [-> | ->].
    - eexists _, _. split; [reflexivity|]. simpl. split; [lia|].
      split; [exact (flashed_documents w _ (Some "Missing credentials"))|].
      split; [exact (flashed_sessions w _ (Some "Missing credentials"))|].
      by destruct Hl as [-> | ->]. }
  destruct req as [r u ud ns]. simpl in *. subst ns. unfold same_documents.
  destruct (route r) eqn:Hroute; try discriminate;
    try (apply Hlogin; auto; fail); clear Hlogin.
  all: run_handlers; eexists _, _; (split; [reflexivity|]); simpl;
    (split; [lia | done]).
Qed.

(** X4: while the database is at fault, no route that goes to it answers
    with a success: the status is 400 or above, no user, project, club or
    profile is written and no session is bound to a principal; outside
    the login routes nothing at all is written to the session store. *)
Theorem store_fault_fails_the_request w r e :
  fault w = Some e → uses_store (route r) = true →
  ∃ res w', app r w = (Ok res, w')
            ∧ (400 ≤ status res)%nat ∧ same_documents w w'
            ∧ sessions w' = sessions w
            ∧ (route r ≠ POST_login → route r ≠ POST_clublogin →
               flashes w' = flashes w).
Proof.
  intros Hf Hr. rewrite app_run.
  destruct (session_gate r w).1 as [u|e'].
  - by apply (router_fault (mkReq r u None None) w e).
  - eexists _, _. split; [reflexivity|]. simpl. split; [lia|].
    by unfold same_documents.
Qed.

(** ** Listings *)

Lemma app_listings w r :
  route r = GET_listings → fault w = None →
  app r w = (Ok (res_json (VArr (map Project_json (projects w)))), w).
Proof.
  intros Hr Hf. destruct (app_no_fault w r Hf) as [u ->].
  unfold router; simpl; rewrite Hr.
  unfold listings, try_catch, Project_find, store, mbind, M_bind, mret, M_ret.
  by rewrite Hf.
Qed.

(** X5: a project an authenticated POST /makeproj saves is listed by
    GET /listings, to any caller, as the last entry, with the name, the
    description, the number and the type of the body and the creating
    principal as owner. *)
Theorem created_project_is_listed w r p r' :
  route r = POST_makeproj → Authenticated w r p →
  Project_check (projects w) (project_of w r p) = None →
  route r' = GET_listings →
  app r' (app r w).2
  = (Ok (res_json (VArr (map Project_json (projects w)
                         ++ [Project_json (project_of w r p)]))),
     (app r w).2)
  ∧ Project_json (project_of w r p)
    = json_obj [("_id", VId (next_oid w)); ("name", field (body r) "name");
                ("desc", field (body r) "desc"); ("num", field (body r) "num");
                ("type", field (body r) "type");
                ("createdBy", VId (Principal._id p))].
Proof.
  intros Hr Ha Hc Hr'. split; [|done].
  pose proof (Authenticated_no_fault _ _ _ Ha) as Hf.
  rewrite (makeproj_authenticated _ _ _ Hr Ha), Hc. simpl.
  rewrite app_listings by done. simpl. by rewrite map_app.
Qed.

(** ** Clubs *)

Lemma app_clubpost w r :
  route r = GET_clubpost → fault w = None →
  app r w = (Ok (res_json (VArr (map Club_json (clubs w)))), w).
Proof.
  intros Hr Hf. destruct (app_no_fault w r Hf) as [u ->].
  unfold router; simpl; rewrite Hr.
  unfold clubpost, try_catch, Club_find, store, mbind, M_bind, mret, M_ret.
  by rewrite Hf.
Qed.

Lemma router_clublisting (req : Req) :
  route (request req) = POST_clublisting → router req = clublisting req.
Proof. unfold router. by intros ->. Qed.

(** What POST /clublisting does with a file within the limit. *)
Lemma clublisting_run (req : Req) w :
  within_limit (request req) →
  try_catch (clublisting req) default_error_handler w =
    match Club_check (clubs w) (club_of w (request req)) with
    | Some e =>
        (Ok (res_status_json 400 (json_obj [("error", VStr (Error_toString e))])),
         set_next_oid S w)
    | None =>
        match fault w with
        | Some e =>
            (Ok (res_status_json 400 (json_obj [("error", VStr (Error_toString e))])),
             set_next_oid S w)
        | None =>
            (Ok club_added,
             set_clubs (λ cs, (cs ++ [club_of w (request req)])%list)
               (set_next_oid S w))
        end
    end.
Proof.
  destruct req as [r u ud ns]. simpl. intros Hl. unfold within_limit in Hl.
  unfold clublisting, guarded, upload_single, try_catch, Club_save, store, new_oid,
    mbind, M_bind, mret, M_ret, throw, club_of, file_buffer. simpl.
  destruct (file r) as [data|] eqn:Hfile.
  - destruct (Z.ltb_spec fileSize_limit (Z.of_nat (String.length data))); [lia|].
    simpl. rewrite ?Hfile.
    destruct (Club_check _ _); simpl; [done|]. by destruct (fault w).
  - simpl. rewrite ?Hfile.
    destruct (Club_check _ _); simpl; [done|]. by destruct (fault w).
Qed.

(** A file over the limit stops the request before the handler. *)
Lemma clublisting_over_limit (req : Req) w :
  ¬ within_limit (request req) →
  (try_catch (clublisting req) default_error_handler w).2 = w.
Proof.
  destruct req as [r u ud ns]. simpl. intros Hl. unfold within_limit in Hl.
  unfold clublisting, guarded, upload_single, try_catch, mbind, M_bind, throw. simpl.
  destruct (file r) as [data|]; [|done].
  destruct (Z.ltb_spec fileSize_limit (Z.of_nat (String.length data))); [done|lia].
Qed.

(** X6: POST /clublisting asks for no session: from any caller, with a
    poster within the limit (or none) and a club the model accepts, it
    stores the club built from the body and the uploaded bytes and
    answers with the success object; GET /clubpost then lists that club
    as the last entry. *)
Theorem posted_club_is_listed w r r' :
  route r = POST_clublisting → fault w = None → within_limit r →
  Club_check (clubs w) (club_of w r) = None →
  route r' = GET_clubpost →
  app r w = (Ok club_added,
             set_clubs (λ cs, (cs ++ [club_of w r])%list) (set_next_oid S w))
  ∧ app r' (app r w).2
    = (Ok (res_json (VArr (map Club_json (clubs w) ++ [Club_json (club_of w r)]))),
       (app r w).2).
Proof.
  intros Hr Hf Hl Hc Hr'.
  assert (Happ : app r w
                 = (Ok club_added,
                    set_clubs (λ cs, (cs ++ [club_of w r])%list) (set_next_oid S w))).
  { destruct (app_no_fault w r Hf) as [u ->].
    rewrite router_clublisting, clublisting_run by done. simpl. by rewrite Hc, Hf. }
  split; [done|]. rewrite Happ. simpl.
  rewrite app_clubpost by done. simpl. by rewrite map_app.
Qed.

(** X7: a club is stored only if the uploaded poster is within multer's
    limit of 5 MB; the stored club then holds exactly the uploaded bytes
    (or no poster when no file came). *)
Theorem stored_club_poster_is_within_limit w r res w' c :
  route r = POST_clublisting →
  app r w = (Ok res, w') → clubs w' = (clubs w ++ [c])%list →
  within_limit r
  ∧ Club.posterImage c = match file r with
                         | Some data => VBuf data
                         | None => VUndefined
                         end.
Proof.
  intros Hr Happ Hc. rewrite app_run in Happ.
  destruct (session_gate r w).1 as [u|e].
  2:{ injection Happ as _ <-. by apply app_inv_self_app in Hc. }
  rewrite router_clublisting in Happ by done.
  assert (Hl : within_limit r).
  { unfold within_limit. destruct (file r) as [data|] eqn:Hfile; [|done].
    destruct (Z.le_gt_cases (Z.of_nat (String.length data)) fileSize_limit) as [|Hgt];
      [done|].
    exfalso.
    pose proof (clublisting_over_limit (mkReq r u None None) w) as Hw.
    rewrite Happ in Hw. simpl in Hw.
    rewrite Hw in Hc.
    - by apply app_inv_self_app in Hc.
    - unfold within_limit. simpl. rewrite Hfile. lia. }
  split; [done|].
  rewrite clublisting_run in Happ by done. simpl in Happ.
  destruct (Club_check _ _).
  { injection Happ as _ <-. simpl in Hc. by apply app_inv_self_app in Hc. }
  destruct (fault w).
  { injection Happ as _ <-. simpl in Hc. by apply app_inv_self_app in Hc. }
  injection Happ as _ <-. simpl in Hc. apply app_inv_head in Hc.
  by injection Hc as <-.
Qed.

(** ** Profiles *)

Lemma session_gate_same w w' r :
  users w' = users w → sessions w' = sessions w → fault w' = fault w →
  (session_gate r w').1 = (session_gate r w).1.
Proof.
  intros Hu Hs Hf.
  unfold session_gate, mbind, M_bind, get_world, mret, M_ret,
    User_deserializeUser, store. rewrite Hs.
  destruct (cookie r) as [sid|]; [|done].
  destruct (sessions w !! sid); [|done].
  rewrite Hf, Hu. by destruct (fault w).
Qed.

Lemma find_app_last {A} (P : A → bool) l x :
  List.find P l = None → P x = true → List.find P (l ++ [x]) = Some x.
Proof.
  induction l as [|y l IH]; simpl; [by intros _ ->|].
  destruct (P y); [done|]. apply IH.
Qed.

Lemma find_replace_detail (P : userdetail.doc → bool) d0 d' ds :
  List.find P ds = Some d0 → userdetail._id d' = userdetail._id d0 →
  P d' = true → List.find P (replace_detail d' ds) = Some d'.
Proof.
  intros Hfind Hid Hp. induction ds as [|x xs IH]; [done|].
  simpl in *. destruct (P x) eqn:Hx.
  - injection Hfind as ->. by rewrite Hid, Nat.eqb_refl, Hp.
  - destruct (Nat.eqb_spec (userdetail._id x) (userdetail._id d')).
    + by rewrite Hp.
    + rewrite Hx. by apply IH.
Qed.

Lemma profile_for_email w b d :
  profile_for w b = Some d → userdetail.email d = field b "email".
Proof.
  intros E. apply find_some in E as [_ E]. by apply value_eqb_eq in E.
Qed.

(** X8: what a user saves under the own email is what the user reads
    back: after a POST /userpage that was answered 200 and whose [email]
    is the email of the principal [p], an authenticated GET /userpage of
    [p] is answered 200 with the very body the POST returned. *)
Theorem saved_profile_is_read_back w r r' p res w1 :
  route r = POST_userpage → route r' = GET_userpage →
  Authenticated w r' p →
  field (body r) "email" = Principal.email p →
  app r w = (Ok res, w1) → status res = 200 →
  app r' w1 = (Ok (mkResponse 200 (rbody res) None), w1).
Proof.
  intros Hr Hr' Ha He Happ Hs.
  pose proof (Authenticated_no_fault _ _ _ Ha) as Hf.
  rewrite app_userpage_post, userpage_post_run in Happ by done.
  simpl in Happ.
  destruct (profile_for w (body r)) as [d0|] eqn:Hd.
  - destruct (userdetail_check _ _).
    { injection Happ as <- _. discriminate Hs. }
    injection Happ as <- <-. simpl.
    apply userpage_get_with_profile with (p := p); [done| |].
    + unfold Authenticated. by rewrite (session_gate_same w).
    + unfold profile_of. simpl. rewrite <- He.
      apply find_replace_detail with (d0 := d0); [done|done|].
      simpl. apply value_eqb_eq. by apply profile_for_email with (w := w).
  - destruct (userdetail_check _ _).
    { injection Happ as <- _. discriminate Hs. }
    injection Happ as <- <-. simpl.
    apply userpage_get_with_profile with (p := p); [done| |].
    + unfold Authenticated. by rewrite (session_gate_same w).
    + unfold profile_of. simpl. rewrite <- He.
      apply find_app_last; [done|]. simpl. apply value_eqb_refl.
Qed.

Lemma NoDup_map_id_inj (ds : list userdetail.doc) x y :
  NoDup (map userdetail._id ds) → In x ds → In y ds →
  userdetail._id x = userdetail._id y → x = y.
Proof.
  induction ds as [|z zs IH]; [done|]. simpl.
  intros Hnd [->|Hx] [->|Hy] Hid; try done.
  - apply NoDup_cons in Hnd as [Hz _]. exfalso. apply Hz.
    rewrite Hid. apply list_elem_of_In. by apply in_map.
  - apply NoDup_cons in Hnd as [Hz _]. exfalso. apply Hz.
    rewrite <- Hid. apply list_elem_of_In. by apply in_map.
  - apply NoDup_cons in Hnd as [_ Hnd]. by apply IH.
Qed.

Lemma replace_detail_emails d0 d' ds :
  NoDup (map userdetail._id ds) → In d0 ds →
  userdetail._id d' = userdetail._id d0 →
  userdetail.email d' = userdetail.email d0 →
  map userdetail.email (replace_detail d' ds) = map userdetail.email ds.
Proof.
  intros Hnd Hin Hid Hemail. unfold replace_detail. rewrite map_map.
  apply map_ext_in. intros x Hx.
  destruct (Nat.eqb_spec (userdetail._id x) (userdetail._id d')) as [E|]; [|done].
  rewrite Hid in E. by rewrite (NoDup_map_id_inj ds x d0 Hnd Hx Hin E).
Qed.

Lemma profile_for_None_fresh w b :
  profile_for w b = None →
  field b "email" ∉ map userdetail.email (userdetails w).
Proof.
  intros Hnone Hin. apply list_elem_of_In, in_map_iff in Hin as (x & Hx & Hin).
  pose proof (find_none _ _ Hnone x Hin) as Hno. simpl in Hno.
  rewrite Hx, value_eqb_refl in Hno. done.
Qed.

(** X9: one profile per email: if the stored profiles have distinct ids
    and distinct emails, they still have distinct emails after any
    request. *)
Theorem profile_emails_stay_distinct w r :
  NoDup (map userdetail._id (userdetails w)) →
  NoDup (map userdetail.email (userdetails w)) →
  NoDup (map userdetail.email (userdetails (app r w).2)).
Proof.
  intros Hids Hemails. pose proof (app_effect w r) as He. simpl in He.
  destruct (route r);
    repeat match goal with
           | H : _ ∨ _ |- _ => destruct H
           | H : ∃ _, _ |- _ => destruct H
           | H : _ ∧ _ |- _ => destruct H
           end;
    match goal with H : (app r w).2 = _ |- _ => rewrite H end; try done.
  - simpl. rewrite replace_detail_emails with (d0 := x); try done.
    by eapply profile_for_In.
  - simpl. rewrite map_app. simpl. apply NoDup_app. split; [done|].
    split; [|apply NoDup_singleton].
    intros e He1 He2%list_elem_of_singleton. subst e.
    by apply (profile_for_None_fresh w (body r)).
Qed.

Lemma app_userdetails w r n :
  route r = GET_userdetails n → fault w = None →
  app r w =
    match List.find (λ d, value_eqb (userdetail.fullName d) (VStr n)) (userdetails w) with
    | Some d => (Ok (res_json (userdetail_json d)), w)
    | None => (Ok user_not_found, w)
    end.
Proof.
  intros Hr Hf. destruct (app_no_fault w r Hf) as [u ->].
  unfold router; simpl; rewrite Hr.
  unfold userdetails_fullName, try_catch, userdetail_findOne_fullName, store,
    mbind, M_bind, mret, M_ret.
  rewrite Hf. by destruct (List.find _ _).
Qed.

(** X10: GET /userdetails/:fullName asks for no session: while the store
    answers, any caller gets the whole stored profile of a user with that
    full name, or 404 "User not found" exactly when no stored profile has
    that name; nothing is changed. *)
Theorem profile_by_full_name w r n :
  route r = GET_userdetails n → fault w = None →
  (∃ d, In d (userdetails w) ∧ userdetail.fullName d = VStr n
        ∧ app r w = (Ok (res_json (userdetail_json d)), w))
  ∨ ((∀ d, In d (userdetails w) → userdetail.fullName d ≠ VStr n)
     ∧ app r w = (Ok user_not_found, w)).
Proof.
  intros Hr Hf. rewrite (app_userdetails w r n Hr Hf).
  destruct (List.find _ _) as [d|] eqn:E.
  - left. exists d. apply find_some in E as [Hin E].
    by apply value_eqb_eq in E.
  - right. split; [|done]. intros d Hin Hname.
    pose proof (find_none _ _ E d Hin) as Hno. simpl in Hno.
    by rewrite Hname, value_eqb_refl in Hno.
Qed.

Lemma replace_detail_idem d ds :
  replace_detail d (replace_detail d ds) = replace_detail d ds.
Proof.
  unfold replace_detail. rewrite map_map. apply map_ext. intros x.
  destruct (Nat.eqb_spec (userdetail._id x) (userdetail._id d)) as [|Hne].
  - by rewrite Nat.eqb_refl.
  - by destruct (Nat.eqb_spec (userdetail._id x) (userdetail._id d)).
Qed.

Lemma replace_detail_fresh d ds :
  Forall (λ x, userdetail._id x ≠ userdetail._id d) ds → replace_detail d ds = ds.
Proof.
  intros Hf. unfold replace_detail. rewrite <- (map_id ds) at 2.
  apply map_ext_in. intros x Hx.
  rewrite Forall_forall in Hf. specialize (Hf x). 
  destruct (Nat.eqb_spec (userdetail._id x) (userdetail._id d)) as [E|]; [|done].
  exfalso. apply Hf; [by apply list_elem_of_In | done].
Qed.

Lemma updated_new_profile id b : updated_profile (new_profile id b) b = new_profile id b.
Proof. done. Qed.

Lemma updated_updated_profile d b :
  updated_profile (updated_profile d b) b = updated_profile d b.
Proof. done. Qed.

(** X14: submitting the same profile twice stores it once: when both
    submissions are answered 200 (and no stored profile already has the
    id the first one draws), the second leaves the profiles as the first
    left them and returns the same body. *)
Theorem same_submission_twice w r res1 w1 res2 w2 :
  route r = POST_userpage → fault w = None →
  Forall (λ d, userdetail._id d ≠ next_oid w) (userdetails w) →
  app r w = (Ok res1, w1) → status res1 = 200 →
  app r w1 = (Ok res2, w2) → status res2 = 200 →
  userdetails w2 = userdetails w1 ∧ rbody res2 = rbody res1.
Proof.
  intros Hr Hf Hfresh Happ1 Hs1 Happ2 Hs2.
  rewrite app_userpage_post, userpage_post_run in Happ1 by done.
  simpl in Happ1.
  destruct (profile_for w (body r)) as [d0|] eqn:Hd.
  - destruct (userdetail_check _ _); [injection Happ1 as <- _; discriminate Hs1|].
    injection Happ1 as <- <-.
    rewrite app_userpage_post, userpage_post_run in Happ2 by done.
    simpl in Happ2.
    assert (Hd1 : profile_for
                    (set_userdetails (replace_detail (updated_profile d0 (body r))) w)
                    (body r) = Some (updated_profile d0 (body r))).
    { unfold profile_for. simpl.
      apply find_replace_detail with (d0 := d0); [done|done|].
      simpl. apply value_eqb_eq. by apply profile_for_email with (w := w). }
    rewrite Hd1, updated_updated_profile in Happ2.
    destruct (userdetail_check _ _); [injection Happ2 as <- _; discriminate Hs2|].
    injection Happ2 as <- <-. simpl. by rewrite replace_detail_idem.
  - destruct (userdetail_check _ _); [injection Happ1 as <- _; discriminate Hs1|].
    injection Happ1 as <- <-.
    rewrite app_userpage_post, userpage_post_run in Happ2 by done.
    simpl in Happ2.
    assert (Hd1 : profile_for
                    (set_userdetails
                       (λ ds, (ds ++ [new_profile (next_oid w) (body r)])%list)
                       (set_next_oid S w))
                    (body r) = Some (new_profile (next_oid w) (body r))).
    { unfold profile_for. simpl. apply find_app_last; [done|].
      simpl. apply value_eqb_refl. }
    rewrite Hd1, updated_new_profile in Happ2.
    destruct (userdetail_check _ _); [injection Happ2 as <- _; discriminate Hs2|].
    injection Happ2 as <- <-. simpl. split; [|done].
    unfold replace_detail. rewrite map_app. f_equal.
    + by apply replace_detail_fresh.
    + simpl. by rewrite Nat.eqb_refl.
Qed.

(** ** Guards in the handlers *)

(** X11: the handler of POST /makeproj protects itself: behind any
    guard that lets a request without a principal through without
    inventing one, reading [req.user._id] throws, the handler answers with
    its fixed error object and stores nothing: the state is the one the
    guard left. *)
Theorem makeproj_handler_protects_itself (guard : Middleware) (req : Req) w :
  user req = None →
  (∀ req' w', guard req w = (Ok (inr req'), w') → user req' = None) →
  guarded guard makeproj_handler req w =
    match guard req w with
    | (Ok (inl res), w') => (Ok res, w')
    | (Ok (inr _), w') => (Ok makeproj_error, w')
    | (Throw e, w') => (Throw e, w')
    end.
Proof.
  intros Hu Hg. unfold guarded, mbind, M_bind.
  destruct (guard req w) as [[[res|req']|e] w']; [done| |done].
  apply makeproj_handler_no_user. by apply (Hg req' w').
Qed.

(** X12: GET /userpage is protected twice: behind any guard that lets a
    request without a principal through, [getUserDetails] answers 401
    "Not authenticated" without going to the store, and the handler after
    it never runs. *)
Theorem userpage_needs_principal (guard : Middleware) (h : Handler) (req : Req) w :
  user req = None →
  (∀ req' w', guard req w = (Ok (inr req'), w') → user req' = None) →
  guarded guard (guarded getUserDetails h) req w =
    match guard req w with
    | (Ok (inl res), w') => (Ok res, w')
    | (Ok (inr _), w') => (Ok not_authenticated, w')
    | (Throw e, w') => (Throw e, w')
    end.
Proof.
  intros Hu Hg. unfold guarded at 1. unfold mbind, M_bind.
  destruct (guard req w) as [[[res|req']|e] w']; [done| |done].
  unfold guarded, mbind, M_bind. rewrite getUserDetails_no_user; [done|].
  by apply (Hg req' w').
Qed.

(** X13: POST /clublogin is POST /login under another path: for the
    same body, query, cookie and transport the two give the same response
    and the same state; there is no separate club credential. *)
Theorem clublogin_is_login w r r' :
  route r = POST_login → route r' = POST_clublogin →
  body r' = body r → query r' = query r → cookie r' = cookie r →
  secure r' = secure r →
  app r' w = app r w.
Proof.
  intros Hr Hr' Hb Hq Hc Hs.
  destruct r as [rt b q c s f], r' as [rt' b' q' c' s' f']. simpl in *. subst.
  rewrite !app_run.
  assert (Hg : (session_gate (mkRequest POST_clublogin b q c s f') w).1
               = (session_gate (mkRequest POST_login b q c s f) w).1) by done.
  rewrite Hg. destruct (session_gate _ w).1 as [u|e]; [|done].
  unfold try_catch. rewrite !router_login by (simpl; auto).
  destruct (fault w) as [e|] eqn:Hf.
  - by rewrite !(login_run_fault _ w e) by done.
  - by rewrite !login_run by done.
Qed.

(** X15: the answer of an authenticated POST /makeproj names the stored
    record: a 200 means exactly one project was appended, built from the
    body, and the [id] of the response is its [_id]; any other answer is
    the fixed error object and no project was stored. *)
Theorem makeproj_response_names_the_record w r p res w' :
  route r = POST_makeproj → Authenticated w r p →
  app r w = (Ok res, w') →
  (status res = 200
   ∧ projects w' = (projects w ++ [project_of w r p])%list
   ∧ rbody res = BJson (json_obj [("status", VStr "success");
                                  ("id", VId (Project._id (project_of w r p)))]))
  ∨ (res = makeproj_error ∧ projects w' = projects w).
Proof.
  intros Hr Ha Happ. rewrite (makeproj_authenticated _ _ _ Hr Ha) in Happ.
  destruct (Project_check _ _).
  - right. by injection Happ as <- <-.
  - left. by injection Happ as <- <-.
Qed.

(** X16: an authenticated GET /userpage only ever shows a profile stored
    under the email of the session's principal: the answer is the empty
    object or a stored profile whose [email] is the principal's. *)
Theorem userpage_shows_own_profile_only w r p res w' :
  route r = GET_userpage → Authenticated w r p →
  app r w = (Ok res, w') →
  w' = w
  ∧ (res = res_json (VObj [])
     ∨ ∃ d, In d (userdetails w)
            ∧ userdetail.email d = Principal.email p
            ∧ res = res_json (userdetail_json d)).
Proof.
  intros Hr Ha Happ.
  destruct (profile_of w p) as [d|] eqn:Hp.
  - rewrite (userpage_get_with_profile w r p d Hr Ha Hp) in Happ.
    injection Happ as <- <-. split; [done|]. right. exists d.
    apply find_some in Hp as [Hin E]. by apply value_eqb_eq in E.
  - pose proof (Authenticated_no_fault _ _ _ Ha) as Hf.
    rewrite app_authenticated with (p := p) in Happ by done.
    unfold router in Happ; simpl in Happ; rewrite Hr in Happ.
    unfold try_catch, userpage_get, guarded, isLoggedIn, getUserDetails, try_catch,
      userdetail_findOne_email, store, mbind, M_bind, mret, M_ret in Happ;
      simpl in Happ.
    rewrite Hf in Happ. fold (profile_of w p) in Happ. rewrite Hp in Happ.
    injection Happ as <- <-. split; [done|]. by left.
Qed.

End Properties.

(** * The properties on the sample data *)

(** A request with a cookie that resolves to no live session is refused
    on /makeproj. *)
Lemma anonymous_request_is_refused_witness :
  Anonymous Sample.w0 (Sample.makeproj_request (Some "stale"))
  ∧ @app Sample.rt (Sample.makeproj_request (Some "stale")) Sample.w0
    = (Ok Unauthorized, Sample.w0)
  ∧ status Unauthorized = 401.
Proof.
  assert (Ha : Anonymous Sample.w0 (Sample.makeproj_request (Some "stale")))
    by (vm_compute; reflexivity).
  split; [exact Ha|].
  apply (@anonymous_request_is_refused Sample.rt _ _ Ha).
  left; reflexivity.
Defined.

(** Alice and Bob send the same body, which even names Bob as
    [createdBy]; each project is stamped with the id of its session's
    principal. *)
Lemma makeproj_owner_is_session_principal_witness :
  Authenticated Sample.w0 (Sample.makeproj_request (Some "sidA"))
    (strip Sample.alice)
  ∧ Authenticated Sample.w0 (Sample.makeproj_request (Some "sidB"))
      (strip Sample.bob)
  ∧ Project.createdBy
      (project_of Sample.w0 (Sample.makeproj_request (Some "sidA")) (strip Sample.alice))
    = VId 1
  ∧ Project.createdBy
      (project_of Sample.w0 (Sample.makeproj_request (Some "sidB")) (strip Sample.bob))
    = VId 2
  ∧ Project.createdBy
      (project_of Sample.w0 (Sample.makeproj_request (Some "sidA")) (strip Sample.alice))
    ≠ Project.createdBy
        (project_of Sample.w0 (Sample.makeproj_request (Some "sidB")) (strip Sample.bob)).
Proof.
  assert (Ha : Authenticated Sample.w0
                 (Sample.makeproj_request (Some "sidA")) (strip Sample.alice))
    by (vm_compute; reflexivity).
  assert (Hb : Authenticated Sample.w0
                 (Sample.makeproj_request (Some "sidB")) (strip Sample.bob))
    by (vm_compute; reflexivity).
  assert (Hca : creates_project (H := Sample.rt) (Sample.makeproj_request (Some "sidA"))
                  Sample.w0
                  (project_of Sample.w0 (Sample.makeproj_request (Some "sidA"))
                     (strip Sample.alice))).
  { eexists _, _. split; [vm_compute; reflexivity | reflexivity]. }
  assert (Hcb : creates_project (H := Sample.rt) (Sample.makeproj_request (Some "sidB"))
                  Sample.w0
                  (project_of Sample.w0 (Sample.makeproj_request (Some "sidB"))
                     (strip Sample.bob))).
  { eexists _, _. split; [vm_compute; reflexivity | reflexivity]. }
  split; [exact Ha|]. split; [exact Hb|].
  destruct (@makeproj_owner_is_session_principal Sample.rt Sample.w0
              (Sample.makeproj_request (Some "sidA"))
              (Sample.makeproj_request (Some "sidB"))
              (strip Sample.alice) (strip Sample.bob) _ _
              eq_refl eq_refl eq_refl Ha Hb Hca Hcb) as (H1 & H2 & H3).
  split; [exact H1|]. split; [exact H2|].
  apply H3. discriminate.
Defined.

(** An anonymous caller names Alice's email and her profile is
    overwritten. *)
Lemma userpage_post_accepts_unauthenticated_writes_witness :
  Anonymous Sample.w0 (Sample.profile_request None)
  ∧ profile_for Sample.w0 Sample.overwrite_body = Some Sample.alice_details
  ∧ (@app Sample.rt (Sample.profile_request None) Sample.w0).1
    = Ok (profile_saved (updated_profile Sample.alice_details Sample.overwrite_body))
  ∧ userdetails (@app Sample.rt (Sample.profile_request None) Sample.w0).2
    = [userdetail.mk 3 (VStr "000") VUndefined VUndefined VUndefined VUndefined
         (VStr "Mallory") (VStr "a@x.com") VUndefined (VArr []) VUndefined].
Proof.
  split; [exact I|]. split; [vm_compute; reflexivity|].
  destruct (@userpage_post_accepts_unauthenticated_writes Sample.rt Sample.w0
              (Sample.profile_request None) eq_refl eq_refl) as (_ & Hover & _).
  destruct (Hover Sample.alice_details) as [Happ _];
    [vm_compute; reflexivity | reflexivity |].
  simpl in Happ. rewrite Happ. split; [reflexivity | vm_compute; reflexivity].
Defined.

(** Bob, logged in, has no profile: the answer is the empty object. *)
Lemma userpage_get_without_profile_witness :
  Authenticated Sample.w0 (Sample.userpage_request (Some "sidB")) (strip Sample.bob)
  ∧ profile_of Sample.w0 (strip Sample.bob) = None
  ∧ @app Sample.rt (Sample.userpage_request (Some "sidB")) Sample.w0
    = (Ok (mkResponse 200 (BJson (VObj [])) None), Sample.w0).
Proof.
  assert (Ha : Authenticated Sample.w0 (Sample.userpage_request (Some "sidB"))
                 (strip Sample.bob)) by (vm_compute; reflexivity).
  assert (Hp : profile_of Sample.w0 (strip Sample.bob) = None)
    by (vm_compute; reflexivity).
  split; [exact Ha|]. split; [exact Hp|].
  exact (proj1 (@userpage_get_without_profile Sample.rt Sample.w0
                  (Sample.userpage_request (Some "sidB")) (strip Sample.bob)
                  eq_refl Ha Hp)).
Defined.

(** Bob's session submits Alice's email: her record keeps [_id] and
    [email] and takes the other fields from the body. *)
Lemma userpage_post_update_keeps_email_witness :
  profile_for Sample.w0 Sample.overwrite_body = Some Sample.alice_details
  ∧ ∃ d', In d' (userdetails
                   (set_userdetails
                      (replace_detail
                         (updated_profile Sample.alice_details Sample.overwrite_body))
                      Sample.w0))
          ∧ userdetail._id d' = userdetail._id Sample.alice_details
          ∧ userdetail.email d' = userdetail.email Sample.alice_details
          ∧ userdetail.fullName d' = VStr "Mallory".
Proof.
  assert (Hd : profile_for Sample.w0 Sample.overwrite_body = Some Sample.alice_details)
    by (vm_compute; reflexivity).
  split; [exact Hd|].
  destruct (@userpage_post_update_keeps_email Sample.rt Sample.w0
              (Sample.profile_request (Some "sidB")) Sample.alice_details
              (profile_saved (updated_profile Sample.alice_details Sample.overwrite_body))
              (set_userdetails
                 (replace_detail
                    (updated_profile Sample.alice_details Sample.overwrite_body))
                 Sample.w0))
    as (d' & _ & Hin & Hid & Hemail & _ & _ & _ & _ & _ & Hname & _).
  - reflexivity.
  - reflexivity.
  - exact Hd.
  - vm_compute; reflexivity.
  - reflexivity.
  - exists d'. split; [exact Hin|]. split; [exact Hid|]. split; [exact Hemail|].
    exact Hname.
Defined.

(** ** Login *)



(** ** Signup *)

(** A signup that takes Alice's username is refused and the users stay;
    Carol's signup succeeds once and is refused the second time. *)
Lemma signup_duplicate_identity_witness :
  identity_taken Sample.w0
    (Sample.obj [("username", VStr "alice"); ("email", VStr "new@x.com");
                 ("password", VStr "x"); ("campus1", VStr "Main")])
  ∧ (∃ res w',
       @app Sample.rt
         (Sample.signup_request
            [("username", VStr "alice"); ("email", VStr "new@x.com");
             ("password", VStr "x"); ("campus1", VStr "Main")]) Sample.w0
       = (Ok res, w')
       ∧ status res = 500 ∧ users w' = users Sample.w0)
  ∧ ¬ identity_taken Sample.w0 (Sample.obj Sample.carol_fields)
  ∧ (∃ u w1 w2,
       @app Sample.rt (Sample.signup_request Sample.carol_fields) Sample.w0
       = (Ok signup_success, w1)
       ∧ users w1 = [Sample.alice; Sample.bob; u]
       ∧ User.username u = VStr "carol"
       ∧ @app Sample.rt (Sample.signup_request Sample.carol_fields) w1
         = (Ok signup_error, w2)
       ∧ users w2 = users w1).
Proof.
  assert (Ht : identity_taken Sample.w0
                 (Sample.obj [("username", VStr "alice"); ("email", VStr "new@x.com");
                              ("password", VStr "x"); ("campus1", VStr "Main")])).
  { exists Sample.alice. split; [by left | by left]. }
  assert (Hn : ¬ identity_taken Sample.w0 (Sample.obj Sample.carol_fields)).
  { intros (u & Hin & Hu). simpl in Hin.
    destruct Hin as [<- | [<- | []]]; destruct Hu as [Hu | Hu];
      vm_compute in Hu; discriminate Hu. }
  split; [exact Ht|]. split; [|split; [exact Hn|]].
  - destruct (proj1 (@signup_duplicate_identity Sample.rt Sample.w0
                       (Sample.signup_request
                          [("username", VStr "alice"); ("email", VStr "new@x.com");
                           ("password", VStr "x"); ("campus1", VStr "Main")])
                       eq_refl) Ht) as (_ & res & w' & Happ & Hs & Hu & _).
    exists res, w'. split; [exact Happ|]. split; [exact Hs | exact Hu].
  - destruct (proj2 (@signup_duplicate_identity Sample.rt Sample.w0
                       (Sample.signup_request Sample.carol_fields) eq_refl)
                Hn eq_refl eq_refl)
      as (u & w1 & w2 & Happ & Hu & Hname & _ & Happ2 & Hu2).
    exists u, w1, w2. split; [exact Happ|]. split; [exact Hu|].
    split; [exact Hname|]. split; [exact Happ2 | exact Hu2].
Defined.

(** The payload with the six fields the specification lists, the campus
    under the key [campus], is refused with status 500 and no user is
    created. *)
Lemma signup_complete_payload_is_refused :
  @app Sample.rt (Sample.signup_request Sample.carol_fields_campus) Sample.w0
  = (Ok (mkResponse 500
           (BJson (VObj [("status", VStr "error");
                         ("message", VStr "Error during signup")])) None),
     Sample.w0)
  ∧ ¬ identity_taken Sample.w0 (Sample.obj Sample.carol_fields_campus)
  ∧ Forall (λ k, is_Some (Sample.obj Sample.carol_fields_campus !! k))
      ["firstname"; "lastname"; "username"; "email"; "password"; "campus"].
Proof.
  split; [vm_compute; reflexivity|]. split.
  - intros (u & Hin & Hu). simpl in Hin.
    destruct Hin as [<- | [<- | []]]; destruct Hu as [Hu | Hu];
      vm_compute in Hu; discriminate Hu.
  - repeat constructor; vm_compute; eauto.
Defined.

Lemma signup_requires_campus1_witness :
  truthy (field (Sample.obj Sample.carol_fields_campus) "campus1") = false
  ∧ (∃ res,
       @app Sample.rt (Sample.signup_request Sample.carol_fields_campus) Sample.w0
       = (Ok res, Sample.w0)
       ∧ status res = 500)
  ∧ truthy (field (Sample.obj Sample.carol_fields) "campus1") = true
  ∧ (@app Sample.rt (Sample.signup_request Sample.carol_fields) Sample.w0).1
    = Ok signup_success.
Proof.
  split; [reflexivity|]. split; [|split; [reflexivity|]].
  - destruct (proj1 (@signup_requires_campus1 Sample.rt Sample.w0
                       (Sample.signup_request Sample.carol_fields_campus) eq_refl)
                eq_refl) as (res & Happ & Hs & _).
    exists res. split; [exact Happ | exact Hs].
  - destruct (proj2 (proj2 (@signup_requires_campus1 Sample.rt Sample.w0
                              (Sample.signup_request Sample.carol_fields) eq_refl))
                (strip (with_secret (signup_candidate 10 (Sample.obj Sample.carol_fields))
                          (Sample.toy_kdf "salt2" (VStr "p3")) "salt2"))
                (set_users
                   (λ us, (us ++ [with_secret
                                    (signup_candidate 10 (Sample.obj Sample.carol_fields))
                                    (Sample.toy_kdf "salt2" (VStr "p3")) "salt2"])%list)
                   (set_next_oid S Sample.w0)))
      as [Happ _]; [reflexivity | vm_compute; reflexivity |].
    by rewrite Happ.
Defined.

(** ** Cookies and secrets *)

(** Outside production a login over TLS sets a cookie that is not marked
    secure. *)
Lemma session_cookie_not_secure_over_tls :
  secure (Sample.login_request [("username", VStr "alice"); ("password", VStr "p1")] true)
  = true
  ∧ @app Sample.rt
      (Sample.login_request [("username", VStr "alice"); ("password", VStr "p1")] true)
      Sample.w0
    = (Ok (mkResponse 200
             (BJson (VObj [("status", VStr "success"); ("message", VStr "Welcome")]))
             (Some ("sid2", Cookie.mk true "lax" false))),
       set_sessions (insert "sid2" (VStr "alice")) Sample.w0)
  ∧ Cookie.secure (Cookie.mk true "lax" false) = false.
Proof.
  split; [reflexivity|]. split; [vm_compute; reflexivity | reflexivity].
Defined.

Lemma session_cookie_attributes_witness :
  Cookie.httpOnly (Cookie.mk true "lax" false) = true
  ∧ Cookie.sameSite (Cookie.mk true "lax" false) = "lax"
  ∧ (Cookie.secure (Cookie.mk true "lax" false) = true
     ↔ env Sample.w0 !! "NODE_ENV" = Some "production").
Proof.
  apply (@session_cookie_attributes Sample.rt Sample.w0
           (Sample.login_request [("username", VStr "alice"); ("password", VStr "p1")] true)
           (mkResponse 200 (rbody welcome) (Some ("sid2", Cookie.mk true "lax" false)))
           (set_sessions (insert "sid2" (VStr "alice")) Sample.w0)
           "sid2").
  - vm_compute; reflexivity.
  - reflexivity.
Defined.

(** Alice reads her profile; the answer is the same after her hash and
    salt were replaced. *)
Lemma no_secret_in_responses_witness :
  public_of Sample.w0 = public_of Sample.w0_rehashed
  ∧ Sample.w0 ≠ Sample.w0_rehashed
  ∧ (@app Sample.rt (Sample.userpage_request (Some "sidA")) Sample.w0).1
    = (@app Sample.rt (Sample.userpage_request (Some "sidA")) Sample.w0_rehashed).1.
Proof.
  assert (Hp : public_of Sample.w0 = public_of Sample.w0_rehashed) by reflexivity.
  split; [exact Hp|]. split; [discriminate|].
  destruct (@no_secret_in_responses Sample.rt Sample.w0 Sample.w0_rehashed
              (Sample.userpage_request (Some "sidA")) Hp) as (_ & Hsame & _).
  apply Hsame; discriminate.
Defined.

(** ** The other routes on the sample data *)

(** Alice lists the projects: nothing changes. *)
Lemma reading_routes_change_nothing_witness :
  reads_only (route (Sample.get_request GET_listings (Some "sidA"))) = true
  ∧ (@app Sample.rt (Sample.get_request GET_listings (Some "sidA")) Sample.w0).2
    = Sample.w0.
Proof.
  split; [reflexivity|].
  by apply (@reading_routes_change_nothing Sample.rt).
Defined.

(** With the store down the listing is answered 500 and nothing is
    written. *)
Lemma store_fault_fails_the_request_witness :
  fault Sample.w0_down = Some (mkError "MongoNetworkError" "connection refused")
  ∧ ∃ res w',
      @app Sample.rt (Sample.get_request GET_listings None) Sample.w0_down
      = (Ok res, w')
      ∧ (400 ≤ status res)%nat ∧ same_documents Sample.w0_down w'
      ∧ sessions w' = sessions Sample.w0_down
      ∧ flashes w' = flashes Sample.w0_down.
Proof.
  split; [reflexivity|].
  destruct (@store_fault_fails_the_request Sample.rt Sample.w0_down
              (Sample.get_request GET_listings None)
              (mkError "MongoNetworkError" "connection refused") eq_refl eq_refl)
    as (res & w' & Happ & Hs & Hd & Hss & Hfl).
  exists res, w'. split; [exact Happ|]. split; [exact Hs|]. split; [exact Hd|].
  split; [exact Hss|]. apply Hfl; discriminate.
Defined.

(** Alice's project is listed to an anonymous caller. *)
Lemma created_project_is_listed_witness :
  Authenticated Sample.w0 (Sample.makeproj_request (Some "sidA")) (strip Sample.alice)
  ∧ (@app Sample.rt (Sample.get_request GET_listings None)
       (@app Sample.rt (Sample.makeproj_request (Some "sidA")) Sample.w0).2).1
    = Ok (res_json
            (VArr [VObj [("_id", VId 10); ("name", VStr "Rover");
                         ("desc", VStr "A campus rover"); ("num", VNum 3);
                         ("type", VStr "hardware"); ("createdBy", VId 1)]])).
Proof.
  assert (Ha : Authenticated Sample.w0 (Sample.makeproj_request (Some "sidA"))
                 (strip Sample.alice)) by (vm_compute; reflexivity).
  split; [exact Ha|].
  destruct (@created_project_is_listed Sample.rt Sample.w0
              (Sample.makeproj_request (Some "sidA")) (strip Sample.alice)
              (Sample.get_request GET_listings None)
              eq_refl Ha eq_refl eq_refl) as [Happ _].
  rewrite Happ. vm_compute. reflexivity.
Defined.

(** An anonymous caller posts a club with a small poster; it is stored
    and listed. *)
Lemma posted_club_is_listed_witness :
  within_limit (Sample.club_request (Some "PNG"))
  ∧ (@app Sample.rt (Sample.club_request (Some "PNG")) Sample.w0).1 = Ok club_added
  ∧ (@app Sample.rt (Sample.get_request GET_clubpost None)
       (@app Sample.rt (Sample.club_request (Some "PNG")) Sample.w0).2).1
    = Ok (res_json
            (VArr [VObj [("_id", VId 10); ("clubName", VStr "Chess");
                         ("type", VStr "games"); ("description", VStr "Weekly blitz");
                         ("googleFormLink", VStr "https://forms.example/chess");
                         ("posterImage", VBuf "PNG")]])).
Proof.
  assert (Hl : within_limit (Sample.club_request (Some "PNG")))
    by (vm_compute; discriminate).
  split; [exact Hl|].
  destruct (@posted_club_is_listed Sample.rt Sample.w0
              (Sample.club_request (Some "PNG"))
              (Sample.get_request GET_clubpost None)
              eq_refl eq_refl Hl eq_refl eq_refl) as [Happ Hlist].
  split; [by rewrite Happ|].
  rewrite Hlist. vm_compute. reflexivity.
Defined.

Lemma stored_club_poster_is_within_limit_witness :
  within_limit (Sample.club_request (Some "PNG"))
  ∧ Club.posterImage (club_of Sample.w0 (Sample.club_request (Some "PNG")))
    = VBuf "PNG".
Proof.
  apply (@stored_club_poster_is_within_limit Sample.rt Sample.w0
           (Sample.club_request (Some "PNG")) club_added
           (set_clubs
              (λ cs, (cs ++ [club_of Sample.w0 (Sample.club_request (Some "PNG"))])%list)
              (set_next_oid S Sample.w0))
           (club_of Sample.w0 (Sample.club_request (Some "PNG")))).
  - reflexivity.
  - vm_compute; reflexivity.
  - reflexivity.
Defined.

(** Bob saves his first profile and reads it back. *)
Lemma saved_profile_is_read_back_witness :
  Authenticated Sample.w0 (Sample.userpage_request (Some "sidB")) (strip Sample.bob)
  ∧ @app Sample.rt (Sample.userpage_request (Some "sidB"))
      (set_userdetails
         (λ ds, (ds ++ [new_profile 10 (body Sample.bob_profile_request)])%list)
         (set_next_oid S Sample.w0))
    = (Ok (mkResponse 200
             (BJson (userdetail_json
                       (new_profile 10 (body Sample.bob_profile_request)))) None),
       set_userdetails
         (λ ds, (ds ++ [new_profile 10 (body Sample.bob_profile_request)])%list)
         (set_next_oid S Sample.w0)).
Proof.
  assert (Ha : Authenticated Sample.w0 (Sample.userpage_request (Some "sidB"))
                 (strip Sample.bob)) by (vm_compute; reflexivity).
  split; [exact Ha|].
  apply (@saved_profile_is_read_back Sample.rt Sample.w0 Sample.bob_profile_request
           (Sample.userpage_request (Some "sidB")) (strip Sample.bob)
           (profile_saved (new_profile 10 (body Sample.bob_profile_request)))).
  - reflexivity.
  - reflexivity.
  - exact Ha.
  - reflexivity.
  - vm_compute; reflexivity.
  - reflexivity.
Defined.

Lemma profile_emails_stay_distinct_witness :
  NoDup (map userdetail._id (userdetails Sample.w0))
  ∧ NoDup (map userdetail.email (userdetails Sample.w0))
  ∧ NoDup (map userdetail.email
             (userdetails (@app Sample.rt Sample.bob_profile_request Sample.w0).2)).
Proof.
  assert (Hi : NoDup (map userdetail._id (userdetails Sample.w0)))
    by apply NoDup_singleton.
  assert (He : NoDup (map userdetail.email (userdetails Sample.w0)))
    by apply NoDup_singleton.
  split; [exact Hi|]. split; [exact He|].
  exact (@profile_emails_stay_distinct Sample.rt Sample.w0
           Sample.bob_profile_request Hi He).
Defined.

(** Anybody reads Alice's whole profile by her full name; an unknown
    name gives 404. *)
Lemma profile_by_full_name_witness :
  @app Sample.rt (Sample.get_request (GET_userdetails "Alice Liddell") None) Sample.w0
  = (Ok (res_json (userdetail_json Sample.alice_details)), Sample.w0)
  ∧ @app Sample.rt (Sample.get_request (GET_userdetails "Nobody") None) Sample.w0
    = (Ok user_not_found, Sample.w0).
Proof.
  split.
  - destruct (@profile_by_full_name Sample.rt Sample.w0
                (Sample.get_request (GET_userdetails "Alice Liddell") None)
                "Alice Liddell" eq_refl eq_refl)
      as [(d & Hin & _ & Happ) | [Hno _]].
    + destruct Hin as [<- | []]. exact Happ.
    + exfalso. apply (Hno Sample.alice_details); [left; reflexivity | reflexivity].
  - destruct (@profile_by_full_name Sample.rt Sample.w0
                (Sample.get_request (GET_userdetails "Nobody") None)
                "Nobody" eq_refl eq_refl)
      as [(d & Hin & Hname & _) | [_ Happ]].
    + destruct Hin as [<- | []]. discriminate Hname.
    + exact Happ.
Defined.

(** Behind a guard that lets everybody through, an anonymous POST
    /makeproj is answered with the error object and stores nothing. *)
Lemma makeproj_handler_protects_itself_witness :
  guarded open_guard (@makeproj_handler Sample.rt)
    (mkReq (Sample.makeproj_request None) None None None) Sample.w0
  = (Ok makeproj_error, Sample.w0).
Proof.
  apply (@makeproj_handler_protects_itself Sample.rt open_guard
           (mkReq (Sample.makeproj_request None) None None None) Sample.w0).
  - reflexivity.
  - intros req' w' E. injection E as <- _. reflexivity.
Defined.

(** Behind the same guard an anonymous GET /userpage is answered 401 by
    [getUserDetails], whatever handler follows. *)
Lemma userpage_needs_principal_witness :
  guarded open_guard (guarded getUserDetails catch_all)
    (mkReq (Sample.userpage_request None) None None None) Sample.w0
  = (Ok not_authenticated, Sample.w0).
Proof.
  apply (userpage_needs_principal open_guard catch_all
           (mkReq (Sample.userpage_request None) None None None) Sample.w0).
  - reflexivity.
  - intros req' w' E. injection E as <- _. reflexivity.
Defined.

Lemma clublogin_is_login_witness :
  @app Sample.rt
    (mkRequest POST_clublogin
       (Sample.obj [("username", VStr "alice"); ("password", VStr "p1")]) ∅ None true
       None)
    Sample.w0
  = @app Sample.rt
      (Sample.login_request [("username", VStr "alice"); ("password", VStr "p1")] true)
      Sample.w0.
Proof.
  by apply (@clublogin_is_login Sample.rt).
Defined.

(** Bob submits his profile twice: one record, the same answer. *)
Lemma same_submission_twice_witness :
  userdetails
    (@app Sample.rt Sample.bob_profile_request
       (@app Sample.rt Sample.bob_profile_request Sample.w0).2).2
  = userdetails (@app Sample.rt Sample.bob_profile_request Sample.w0).2
  ∧ length (userdetails (@app Sample.rt Sample.bob_profile_request Sample.w0).2) = 2.
Proof.
  split; [|vm_compute; reflexivity].
  refine (proj1 (@same_submission_twice Sample.rt Sample.w0 Sample.bob_profile_request
           (profile_saved (new_profile 10 (body Sample.bob_profile_request)))
           (@app Sample.rt Sample.bob_profile_request Sample.w0).2
           (profile_saved (new_profile 10 (body Sample.bob_profile_request)))
           (@app Sample.rt Sample.bob_profile_request
              (@app Sample.rt Sample.bob_profile_request Sample.w0).2).2
           eq_refl eq_refl _ _ eq_refl _ eq_refl)).
  - repeat constructor. discriminate.
  - vm_compute; reflexivity.
  - vm_compute; reflexivity.
Defined.

(** Alice's 200 names the project that was stored. *)
Lemma makeproj_response_names_the_record_witness :
  Authenticated Sample.w0 (Sample.makeproj_request (Some "sidA")) (strip Sample.alice)
  ∧ @app Sample.rt (Sample.makeproj_request (Some "sidA")) Sample.w0
    = (Ok (res_json (VObj [("status", VStr "success"); ("id", VId 10)])),
       set_projects
         (λ ps, (ps ++ [project_of Sample.w0 (Sample.makeproj_request (Some "sidA"))
                          (strip Sample.alice)])%list)
         (set_next_oid S Sample.w0))
  ∧ Project._id
      (project_of Sample.w0 (Sample.makeproj_request (Some "sidA"))
         (strip Sample.alice)) = 10.
Proof.
  assert (Ha : Authenticated Sample.w0 (Sample.makeproj_request (Some "sidA"))
                 (strip Sample.alice)) by (vm_compute; reflexivity).
  assert (Happ : @app Sample.rt (Sample.makeproj_request (Some "sidA")) Sample.w0
                 = (Ok (res_json (VObj [("status", VStr "success"); ("id", VId 10)])),
                    set_projects
                      (λ ps, (ps ++ [project_of Sample.w0
                                       (Sample.makeproj_request (Some "sidA"))
                                       (strip Sample.alice)])%list)
                      (set_next_oid S Sample.w0)))
    by (vm_compute; reflexivity).
  split; [exact Ha|]. split; [exact Happ|].
  destruct (@makeproj_response_names_the_record Sample.rt Sample.w0
              (Sample.makeproj_request (Some "sidA")) (strip Sample.alice) _ _
              eq_refl Ha Happ) as [(_ & _ & Hid) | [Hno _]].
  - reflexivity.
  - discriminate Hno.
Defined.

(** Alice, logged in, gets her own profile. *)
Lemma userpage_shows_own_profile_only_witness :
  Authenticated Sample.w0 (Sample.userpage_request (Some "sidA")) (strip Sample.alice)
  ∧ @app Sample.rt (Sample.userpage_request (Some "sidA")) Sample.w0
    = (Ok (res_json (userdetail_json Sample.alice_details)), Sample.w0)
  ∧ userdetail.email Sample.alice_details = Principal.email (strip Sample.alice).
Proof.
  assert (Ha : Authenticated Sample.w0 (Sample.userpage_request (Some "sidA"))
                 (strip Sample.alice)) by (vm_compute; reflexivity).
  assert (Happ : @app Sample.rt (Sample.userpage_request (Some "sidA")) Sample.w0
                 = (Ok (res_json (userdetail_json Sample.alice_details)), Sample.w0))
    by (vm_compute; reflexivity).
  split; [exact Ha|]. split; [exact Happ|].
  destruct (@userpage_shows_own_profile_only Sample.rt Sample.w0
              (Sample.userpage_request (Some "sidA")) (strip Sample.alice) _ _
              eq_refl Ha Happ) as [_ [Hempty | (d & Hin & Hemail & _)]].
  - discriminate Hempty.
  - destruct Hin as [<- | []]. exact Hemail.
Defined.
